(** * SentiCoreX: sentiment analysis service and request handlers

    A shallow embedding of [services/geminiService.ts] (the backend calls and
    the keyword-matching fallback classifier) and of the request handlers
    [handleAnalyze] and [handleCompare] of the application component, followed
    by the properties of the orchestration layer.

    Conventions of the embedding.
    - A JavaScript string is a [string]: a sequence of code units, here the
      one-byte code units U+0000..U+00FF (Latin-1), on which [toLowerCase] and
      the regular-expression classes are closed and modelled exactly.
    - A JavaScript number that holds a fraction (confidence, scores) is a
      binary64 [float] with the IEEE operations, whose exact value is a
      rational; a number that only counts (array lengths, the usage counter)
      is a [nat].
    - A value whose shape is only known at run time (what [JSON.parse]
      returns, the fields copied from it) is a [Value].
    - A promise is its settlement, [Fulfilled] or [Rejected]; every function
      that may call the backend also returns the requests it issued.  *)

From Stdlib Require Import String Ascii List Bool Arith Lia ZArith.
From Stdlib Require Import DecimalString Floats Permutation Sorted.
From Stdlib Require Uint63 QArith Qminmax Qabs.
Import ListNotations.
Open Scope string_scope.
Open Scope list_scope.
Open Scope nat_scope.
Set Warnings "-register-all,-inexact-float".

(** ** JavaScript strings, numbers and dynamic values *)

Module JS.

(** The double-quote character, U+0022. *)
Definition dquote : ascii := ascii_of_nat 34.

Definition in_range (lo hi : nat) (c : ascii) : bool :=
  let n := nat_of_ascii c in (lo <=? n) && (n <=? hi).

(** [String.prototype.toLowerCase] on one code unit: A-Z, and the Latin-1
    capitals U+00C0..U+00DE without the multiplication sign U+00D7. *)
Definition toLowerCaseChar (c : ascii) : ascii :=
  if in_range 65 90 c || in_range 192 214 c || in_range 216 222 c
  then ascii_of_nat (nat_of_ascii c + 32)
  else c.

Fixpoint toLowerCase (s : string) : string :=
  match s with
  | EmptyString => EmptyString
  | String c s' => String (toLowerCaseChar c) (toLowerCase s')
  end.

(** [s.includes(w)]: [w] occurs in [s] as a contiguous substring. *)
Fixpoint includes (s w : string) : bool :=
  String.prefix w s ||
  match s with
  | EmptyString => false
  | String _ s' => includes s' w
  end.

(** The class [[a-zA-Z]]. *)
Definition is_ascii_letter (c : ascii) : bool :=
  in_range 65 90 c || in_range 97 122 c.

(** The class [\w], which is [[A-Za-z0-9_]]. *)
Definition is_word_char (c : ascii) : bool :=
  is_ascii_letter c || in_range 48 57 c || (nat_of_ascii c =? 95).

(** The class [\s] below U+0100: tab, line feed, vertical tab, form feed,
    carriage return, space and no-break space. *)
Definition is_space_char (c : ascii) : bool :=
  in_range 9 13 c || (nat_of_ascii c =? 32) || (nat_of_ascii c =? 160).

(** [re.test(s)] for a regular expression that is one character class. *)
Fixpoint test_class (cls : ascii -> bool) (s : string) : bool :=
  match s with
  | EmptyString => false
  | String c s' => cls c || test_class cls s'
  end.

(** [s.replace(/[cls]/g, r)]: every character of the class becomes [r]. *)
Fixpoint replace_class (cls : ascii -> bool) (r : string) (s : string) : string :=
  match s with
  | EmptyString => EmptyString
  | String c s' =>
      ((if cls c then r else String c EmptyString) ++ replace_class cls r s')%string
  end.

(** [s.split(/\s+/)].  [cur] is the piece being read, reversed; [sep] tells
    that the previous character was a separator.  A separator run at the
    start or at the end leaves an empty piece there, as in JavaScript. *)
Fixpoint split_ws_aux (s : string) (cur : list ascii) (sep : bool) : list string :=
  match s with
  | EmptyString => [string_of_list_ascii (rev cur)]
  | String c s' =>
      if is_space_char c
      then (if sep then split_ws_aux s' [] true
            else string_of_list_ascii (rev cur) :: split_ws_aux s' [] true)
      else split_ws_aux s' (c :: cur) false
  end.

Definition split_ws (s : string) : list string := split_ws_aux s [] false.

(** [s.substring(0, n)]. *)
Fixpoint substring0 (n : nat) (s : string) : string :=
  match n, s with
  | S n', String c s' => String c (substring0 n' s')
  | _, _ => EmptyString
  end.

(** Decimal rendering of a counter, as a template literal does it. *)
Definition string_of_nat (n : nat) : string :=
  NilEmpty.string_of_uint (Nat.to_uint n).

(** A counter as a number. *)
Definition num_of_nat (n : nat) : float :=
  PrimFloat.of_uint63 (Uint63.of_Z (Z.of_nat n)).

(** [Math.min] of two numbers: NaN if either is NaN, and -0 below +0. *)
Definition Math_min (a b : float) : float :=
  if PrimFloat.is_nan a || PrimFloat.is_nan b then PrimFloat.nan
  else if PrimFloat.ltb a b then a
  else if PrimFloat.ltb b a then b
  else if PrimFloat.get_sign a then a else b.

(** Run-time values. An object is the list of its own properties, in the
    order [Object.entries] lists them. *)
Inductive Value : Type :=
| VUndefined
| VNull
| VBool (b : bool)
| VNum (x : float)
| VStr (s : string)
| VArr (items : list Value)
| VObj (props : list (string * Value)).

Fixpoint lookup (k : string) (props : list (string * Value)) : Value :=
  match props with
  | [] => VUndefined
  | (k', v) :: rest => if String.eqb k k' then v else lookup k rest
  end.

(** Property read [v.k] for a name [k] that no prototype defines: [None]
    is the TypeError raised on [null] and [undefined]. *)
Definition get (v : Value) (k : string) : option Value :=
  match v with
  | VUndefined | VNull => None
  | VObj props => Some (lookup k props)
  | _ => Some VUndefined
  end.

(** Truthiness, as [||] and [!] use it. *)
Definition truthy (v : Value) : bool :=
  match v with
  | VUndefined | VNull => false
  | VBool b => b
  | VNum x => negb (PrimFloat.is_nan x || PrimFloat.is_zero x)
  | VStr s => negb (String.eqb s "")
  | VArr _ | VObj _ => true
  end.

(** The settlement of a promise; a rejection carries the [message] of the
    error thrown (empty when it has none). *)
Inductive Promise (A : Type) : Type :=
| Fulfilled (a : A)
| Rejected (message : string).
Arguments Fulfilled {A} a.
Arguments Rejected {A} message.

Definition is_fulfilled {A} (p : Promise A) : bool :=
  match p with Fulfilled _ => true | Rejected _ => false end.

(** [Promise.all]: the values in input order, or a rejection when one of the
    promises rejects. *)
Fixpoint Promise_all {A} (ps : list (Promise A)) : Promise (list A) :=
  match ps with
  | [] => Fulfilled []
  | Fulfilled a :: rest =>
      match Promise_all rest with
      | Fulfilled l => Fulfilled (a :: l)
      | Rejected m => Rejected m
      end
  | Rejected m :: _ => Rejected m
  end.

End JS.
Import JS.

(** ** The result types ([types.ts]) *)

Module Types.

Inductive Sentiment : Type := Positive | Negative | Neutral.

(** The string each member of the enum is at run time. *)
Definition Sentiment_value (s : Sentiment) : string :=
  match s with
  | Positive => "positive"
  | Negative => "negative"
  | Neutral => "neutral"
  end.

Inductive ApiUsed : Type := gemini | fallback.

(** [SentimentAnalysisResult]. The fields copied from the backend's answer
    are typed in the source but unchecked at run time, hence [Value]s; an
    absent [sentenceBreakdown] is [VUndefined]. *)
Record SentimentAnalysisResult : Type := {
  text : string;
  sentiment : Value;
  confidence : Value;
  scores : Value;
  keywords : Value;
  explanation : Value;
  sentenceBreakdown : Value;
  timestamp : string;
  apiUsed : ApiUsed
}.

(** [MoodEnhancerResult]: the backend's answer as it came, or one of the
    three fixed quote-and-playlist records of [getMoodEnhancers]. *)
Inductive MoodEnhancerResult : Type :=
| MoodFromBackend (v : Value)
| MoodForNegative
| MoodForPositive
| MoodForOther.

Definition is_sentiment_value (v : Value) : bool :=
  match v with
  | VStr s => existsb (String.eqb s) ["positive"; "negative"; "neutral"]
  | _ => false
  end.

Definition is_unit_number (v : Value) : bool :=
  match v with
  | VNum x => PrimFloat.leb 0%float x && PrimFloat.leb x 1%float
  | _ => false
  end.

Definition is_string_value (v : Value) : bool :=
  match v with VStr _ => true | _ => false end.

Definition is_scores (v : Value) : bool :=
  match v with
  | VObj props =>
      is_unit_number (lookup "positive" props) &&
      is_unit_number (lookup "negative" props) &&
      is_unit_number (lookup "neutral" props)
  | _ => false
  end.

Definition is_keywords (v : Value) : bool :=
  match v with
  | VArr items => forallb is_string_value items && (length items <=? 5)
  | _ => false
  end.

Definition is_breakdown_item (v : Value) : bool :=
  match v with
  | VObj props =>
      is_string_value (lookup "sentence" props) &&
      is_sentiment_value (lookup "sentiment" props) &&
      is_unit_number (lookup "score" props)
  | _ => false
  end.

Definition is_breakdown (v : Value) : bool :=
  match v with
  | VUndefined => true
  | VArr items => forallb is_breakdown_item items
  | _ => false
  end.

(** A structurally valid result: every field has the type and range the
    interface gives it. *)
Definition well_formed (r : SentimentAnalysisResult) : bool :=
  is_sentiment_value (sentiment r) &&
  is_unit_number (confidence r) &&
  is_scores (scores r) &&
  is_keywords (keywords r) &&
  is_string_value (explanation r) &&
  is_breakdown (sentenceBreakdown r).

End Types.
Import Types.

(** ** The analysis service ([services/geminiService.ts]) *)

Module GeminiService.

(** *** Keyword extraction *)

Definition stopWords : list string :=
  ["a"; "an"; "the"; "and"; "or"; "but"; "in"; "on"; "at"; "to"; "for"; "of"; "with"; "by";
   "is"; "are"; "was"; "were"; "be"; "been"; "have"; "has"; "had"; "do"; "does"; "did";
   "will"; "would"; "could"; "should"; "may"; "might"; "must"; "can"; "this"; "that";
   "these"; "those"; "i"; "you"; "he"; "she"; "it"; "we"; "they"; "me"; "him"; "her"; "us"; "them"].

(** The filter of [extractKeywords]: longer than two, and not a stop word. *)
Definition keep_word (word : string) : bool :=
  (2 <? String.length word) && negb (existsb (String.eqb word) stopWords).

(** [words]: lower-case, every character outside [\w] and [\s] becomes a
    space, split at white space, filter. *)
Definition words_of (text : string) : list string :=
  filter keep_word
    (split_ws
       (replace_class (fun c => negb (is_word_char c || is_space_char c)) " "
          (toLowerCase text))).

(** What [wordCount[word]] holds: a number of occurrences, or (for the one
    word that names an inherited property holding a function) a string that
    is not numeric. *)
Inductive Count : Type := Times (n : nat) | NotANumber.

(** The own properties of [wordCount], in the order [Object.entries] lists
    them: array indices first, ascending, then the other names as created. *)
Definition WordCount : Type := list (string * Count).

Fixpoint digits_value (s : string) (acc : N) : option N :=
  match s with
  | EmptyString => Some acc
  | String c s' =>
      if in_range 48 57 c
      then digits_value s' (acc * 10 + N.of_nat (nat_of_ascii c - 48))%N
      else None
  end.

(** A property name is an array index when it is the canonical decimal
    numeral of an integer below 2^32 - 1. *)
Definition array_index (k : string) : option N :=
  match k with
  | EmptyString => None
  | String c rest =>
      if (nat_of_ascii c =? 48) && negb (String.eqb rest "") then None
      else match digits_value k 0 with
           | Some n => if (n <=? 4294967294)%N then Some n else None
           | None => None
           end
  end.

Fixpoint own (k : string) (o : WordCount) : option Count :=
  match o with
  | [] => None
  | (k', v) :: rest => if String.eqb k k' then Some v else own k rest
  end.

Fixpoint set_own (k : string) (v : Count) (o : WordCount) : WordCount :=
  match o with
  | [] => []
  | (k', v') :: rest =>
      if String.eqb k k' then (k', v) :: rest else (k', v') :: set_own k v rest
  end.

Fixpoint add_key (k : string) (v : Count) (o : WordCount) : WordCount :=
  match o with
  | [] => [(k, v)]
  | (k', v') :: rest =>
      match array_index k, array_index k' with
      | Some n, Some n' =>
          if (n <? n')%N then (k, v) :: o else (k', v') :: add_key k v rest
      | Some _, None => (k, v) :: o
      | None, _ => (k', v') :: add_key k v rest
      end
  end.

(** [wordCount[word] = (wordCount[word] || 0) + 1]. An own count is
    incremented and a new word starts at one; reading [constructor] first
    finds the inherited function, so its entry is a string from then on;
    assigning a string to [__proto__] creates nothing. *)
Definition bump (word : string) (o : WordCount) : WordCount :=
  if String.eqb word "__proto__" then o
  else match own word o with
       | Some (Times n) => set_own word (Times (n + 1)) o
       | Some NotANumber => o
       | None =>
           add_key word
             (if String.eqb word "constructor" then NotANumber else Times 1) o
       end.

(** The comparator [(a, b) => b[1] - a[1]]; a NaN difference counts as 0. *)
Definition compare_entries (a b : string * Count) : Z :=
  match snd b, snd a with
  | Times nb, Times na => (Z.of_nat nb - Z.of_nat na)%Z
  | _, _ => 0%Z
  end.

(** [Array.prototype.sort], which is stable, as an insertion sort. (When a
    count is not a number the comparator is inconsistent and the language
    leaves the order to the implementation; the insertion sort fixes one.) *)
Fixpoint insert_entry (x : string * Count) (l : list (string * Count))
  : list (string * Count) :=
  match l with
  | [] => [x]
  | y :: l' =>
      if (0 <? compare_entries x y)%Z then y :: insert_entry x l' else x :: l
  end.

Definition sort_entries (l : list (string * Count)) : list (string * Count) :=
  fold_right insert_entry [] l.

Definition extractKeywords (text : string) : list string :=
  let words := words_of text in
  let wordCount := fold_left (fun o word => bump word o) words [] in
  map fst (firstn 5 (sort_entries wordCount)).

(** *** The fallback classifier *)

Definition positiveWords : list string :=
  ["love"; "great"; "good"; "excellent"; "amazing"; "happy"; "fantastic";
   "wonderful"; "best"; "perfect"].

Definition negativeWords : list string :=
  ["hate"; "terrible"; "bad"; "awful"; "horrible"; "sad"; "worst";
   "disappointing"; "poor"].

Definition positiveCount (text : string) : nat :=
  let textLower := toLowerCase text in
  length (filter (fun word => includes textLower word) positiveWords).

Definition negativeCount (text : string) : nat :=
  let textLower := toLowerCase text in
  length (filter (fun word => includes textLower word) negativeWords).

(** [Math.min(0.95, 0.7 + (count * 0.05))]. *)
Definition confidence_of (count : nat) : float :=
  Math_min 0.95%float
    (PrimFloat.add 0.7%float (PrimFloat.mul (num_of_nat count) 0.05%float)).

(** The first two assignments of [createFallbackAnalysis]. *)
Definition classify (text : string) : Sentiment * float :=
  let positiveCount := positiveCount text in
  let negativeCount := negativeCount text in
  if negativeCount <? positiveCount then (Positive, confidence_of positiveCount)
  else if positiveCount <? negativeCount then (Negative, confidence_of negativeCount)
  else (Neutral, 0.75%float).

Definition Sentiment_eqb (a b : Sentiment) : bool :=
  match a, b with
  | Positive, Positive | Negative, Negative | Neutral, Neutral => true
  | _, _ => false
  end.

(** One entry of [scores]. *)
Definition score_for (label sentiment : Sentiment) (confidence : float) : float :=
  if Sentiment_eqb sentiment label then confidence
  else PrimFloat.div (PrimFloat.sub 1%float confidence) 2%float.

(** [createFallbackAnalysis(text)]; [timestamp] is what the clock reads. *)
Definition createFallbackAnalysis (timestamp : string) (text : string)
  : SentimentAnalysisResult :=
  let (sentiment, confidence) := classify text in
  {| text := text;
     sentiment := VStr (Sentiment_value sentiment);
     confidence := VNum confidence;
     scores :=
       VObj [("positive", VNum (score_for Positive sentiment confidence));
             ("negative", VNum (score_for Negative sentiment confidence));
             ("neutral", VNum (score_for Neutral sentiment confidence))];
     keywords := VArr (map VStr (extractKeywords text));
     explanation :=
       VStr ("Analysis based on keyword matching. The text seems to be "
               ++ Sentiment_value sentiment ++ ".")%string;
     sentenceBreakdown := VUndefined;
     timestamp := timestamp;
     apiUsed := fallback |}.

(** *** The backend *)

(** What is sent to [ai.models.generateContent]: the prompt template and
    response schema of the calling function, named by the constructor, and
    the texts spliced into the template. *)
Inductive Request : Type :=
| SentimentRequest (escapedText : string)
| MoodRequest (sentiment : Value) (escapedText : string)
| ComparisonRequest (escapedTextA escapedTextB : string).

(** What [generateContent] followed by [JSON.parse(response.text)] gives:
    the call rejects (transport, authentication, rate limit), or the text is
    no JSON document, or the parsed value. *)
Inductive Response : Type :=
| CallFails
| NotJson
| Json (v : Value).

(** The world outside: the environment variable, the backend (the first
    argument numbers the calls of one handler run, so that equal requests
    need not get equal answers), and the clock. *)
Record Env : Type := {
  API_KEY : option string;
  generateContent : nat -> Request -> Response;
  clock : nat -> string
}.

(** [getAiClient()]: [false] when it throws for want of a key. *)
Definition getAiClient (env : Env) : bool :=
  match API_KEY env with
  | Some key => negb (String.eqb key "")
  | None => false
  end.

(** [escapeForPrompt(text)]: a global replace that puts a backslash before
    every double quote. *)
Definition escapeForPrompt (text : string) : string :=
  replace_class (Ascii.eqb dquote) (String "\"%char (String dquote EmptyString)) text.

(** The body of a [try] block: its value and the requests issued, [None]
    when it threw. *)
Definition Attempt (A : Type) : Type := option A * list Request.

(** The [try] block of [analyzeSentiment]. *)
Definition analyzeSentiment_try (env : Env) (slot : nat) (text : string)
  : Attempt SentimentAnalysisResult :=
  if getAiClient env then
    let request := SentimentRequest (escapeForPrompt text) in
    (match generateContent env slot request with
     | CallFails | NotJson => None
     | Json analysis =>
         match get analysis "sentiment", get analysis "confidence",
               get analysis "scores", get analysis "keywords",
               get analysis "explanation", get analysis "sentenceBreakdown" with
         | Some sentiment, Some confidence, Some scores, Some keywords,
           Some explanation, Some sentenceBreakdown =>
             Some {| text := text;
                     sentiment := sentiment;
                     confidence := confidence;
                     scores := scores;
                     keywords := keywords;
                     explanation := explanation;
                     sentenceBreakdown :=
                       if truthy sentenceBreakdown then sentenceBreakdown else VArr [];
                     timestamp := clock env slot;
                     apiUsed := gemini |}
         | _, _, _, _, _, _ => None
         end
     end, [request])
  else (None, []).

(** [analyzeSentiment(text)]: the [catch] clause turns every failure of the
    [try] block into the fallback analysis. *)
Definition analyzeSentiment (env : Env) (slot : nat) (text : string)
  : Promise SentimentAnalysisResult * list Request :=
  match analyzeSentiment_try env slot text with
  | (Some result, calls) => (Fulfilled result, calls)
  | (None, calls) => (Fulfilled (createFallbackAnalysis (clock env slot) text), calls)
  end.

Definition Value_is_string (v : Value) (s : string) : bool :=
  match v with VStr s' => String.eqb s' s | _ => false end.

(** [getMoodEnhancers(sentiment, text)]. *)
Definition getMoodEnhancers (env : Env) (slot : nat) (sentiment : Value) (text : string)
  : Promise MoodEnhancerResult * list Request :=
  let attempt : Attempt MoodEnhancerResult :=
    if getAiClient env then
      let request := MoodRequest sentiment (escapeForPrompt (substring0 500 text)) in
      (match generateContent env slot request with
       | CallFails | NotJson => None
       | Json v => Some (MoodFromBackend v)
       end, [request])
    else (None, []) in
  match attempt with
  | (Some enhancers, calls) => (Fulfilled enhancers, calls)
  | (None, calls) =>
      (Fulfilled
         (if Value_is_string sentiment (Sentiment_value Negative) then MoodForNegative
          else if Value_is_string sentiment (Sentiment_value Positive) then MoodForPositive
          else MoodForOther), calls)
  end.

Definition comparison_failed : string :=
  "We couldn't compare the texts right now. This might be due to the complexity of the text or a temporary connection issue. Please try again with different text.".

(** [compareSentiments(textA, textB)]: the [catch] clause rethrows. *)
Definition compareSentiments (env : Env) (slot : nat) (textA textB : string)
  : Promise Value * list Request :=
  let attempt : Attempt Value :=
    if getAiClient env then
      let request := ComparisonRequest (escapeForPrompt textA) (escapeForPrompt textB) in
      (match generateContent env slot request with
       | CallFails | NotJson => None
       | Json v => Some v
       end, [request])
    else (None, []) in
  match attempt with
  | (Some result, calls) => (Fulfilled result, calls)
  | (None, calls) => (Rejected comparison_failed, calls)
  end.

End GeminiService.

(** ** The application component: state and request handlers *)

Module App.

Definition MAX_ANALYSES : nat := 15.

Record Validation : Type := { valid : bool; message : string }.

Definition is_forbidden_punctuation (c : ascii) : bool :=
  Ascii.eqb c "."%char || Ascii.eqb c "'"%char || Ascii.eqb c dquote.

Definition no_letters_message : string :=
  "Invalid input. Please enter text that includes letters, not just numbers or symbols.".

Definition punctuation_message : string :=
  "Invalid input. The input must not include full stops and inverted commas.".

Definition isValidTextInput (text : string) : Validation :=
  if negb (test_class is_ascii_letter text) then
    {| valid := false; message := no_letters_message |}
  else if test_class is_forbidden_punctuation text then
    {| valid := false; message := punctuation_message |}
  else {| valid := true; message := "" |}.

(** The functions imported from the service module. Each takes the number
    of the backend call it may make within the handler run, and returns its
    promise with the requests it issued. *)
Record Services : Type := {
  analyzeSentiment :
    nat -> string -> Promise SentimentAnalysisResult * list GeminiService.Request;
  getMoodEnhancers :
    nat -> Value -> string -> Promise MoodEnhancerResult * list GeminiService.Request;
  compareSentiments :
    nat -> string -> string -> Promise Value * list GeminiService.Request
}.

(** The service module as the application imports it. *)
Definition geminiService (env : GeminiService.Env) : Services :=
  {| analyzeSentiment := GeminiService.analyzeSentiment env;
     getMoodEnhancers := GeminiService.getMoodEnhancers env;
     compareSentiments := GeminiService.compareSentiments env |}.

Inductive Status : Type := ready | loading | error | success.

Record ApiStatus : Type := { status : Status; status_message : string }.

Record ComparisonModalState : Type := {
  isOpen : bool;
  result : Value;
  modal_isLoading : bool;
  modal_error : option string
}.

(** The state hooks of [App] that the two handlers read or write. *)
Record State : Type := {
  results : list SentimentAnalysisResult;
  isLoading : bool;
  apiStatus : ApiStatus;
  analysisCount : nat;
  currentSentiment : Value;
  moodEnhancers : option MoodEnhancerResult;
  comparisonModalState : ComparisonModalState
}.

Definition initial : State :=
  {| results := [];
     isLoading := false;
     apiStatus := {| status := ready; status_message := "Ready to analyze" |};
     analysisCount := 0;
     currentSentiment := VNull;
     moodEnhancers := None;
     comparisonModalState :=
       {| isOpen := false; result := VNull; modal_isLoading := false;
          modal_error := None |} |}.

Definition setResults (f : list SentimentAnalysisResult -> list SentimentAnalysisResult)
  (st : State) : State :=
  {| results := f (results st); isLoading := isLoading st; apiStatus := apiStatus st;
     analysisCount := analysisCount st; currentSentiment := currentSentiment st;
     moodEnhancers := moodEnhancers st;
     comparisonModalState := comparisonModalState st |}.

Definition setIsLoading (b : bool) (st : State) : State :=
  {| results := results st; isLoading := b; apiStatus := apiStatus st;
     analysisCount := analysisCount st; currentSentiment := currentSentiment st;
     moodEnhancers := moodEnhancers st;
     comparisonModalState := comparisonModalState st |}.

Definition setApiStatus (s : Status) (m : string) (st : State) : State :=
  {| results := results st; isLoading := isLoading st;
     apiStatus := {| status := s; status_message := m |};
     analysisCount := analysisCount st; currentSentiment := currentSentiment st;
     moodEnhancers := moodEnhancers st;
     comparisonModalState := comparisonModalState st |}.

Definition setAnalysisCount (f : nat -> nat) (st : State) : State :=
  {| results := results st; isLoading := isLoading st; apiStatus := apiStatus st;
     analysisCount := f (analysisCount st); currentSentiment := currentSentiment st;
     moodEnhancers := moodEnhancers st;
     comparisonModalState := comparisonModalState st |}.

Definition setCurrentSentiment (v : Value) (st : State) : State :=
  {| results := results st; isLoading := isLoading st; apiStatus := apiStatus st;
     analysisCount := analysisCount st; currentSentiment := v;
     moodEnhancers := moodEnhancers st;
     comparisonModalState := comparisonModalState st |}.

Definition setMoodEnhancers (m : option MoodEnhancerResult) (st : State) : State :=
  {| results := results st; isLoading := isLoading st; apiStatus := apiStatus st;
     analysisCount := analysisCount st; currentSentiment := currentSentiment st;
     moodEnhancers := m;
     comparisonModalState := comparisonModalState st |}.

Definition setComparisonModalState (c : ComparisonModalState) (st : State) : State :=
  {| results := results st; isLoading := isLoading st; apiStatus := apiStatus st;
     analysisCount := analysisCount st; currentSentiment := currentSentiment st;
     moodEnhancers := moodEnhancers st;
     comparisonModalState := c |}.

(** The argument of [handleAnalyze]: [string | string[]]. *)
Inductive Input : Type :=
| Single (text : string)
| Batch (texts : list string).

Definition quota_message (remaining : Z) : string :=
  ("You've reached your usage limit for this session. You can perform "
     ++ (if (0 <? remaining)%Z then string_of_nat (Z.to_nat remaining) else "no")
     ++ " more "
     ++ (if (remaining =? 1)%Z then "analysis" else "analyses")
     ++ ".")%string.

Definition analysis_failed_message : string :=
  "Oops! Something went wrong during the analysis. Please try again shortly.".

Definition complete_message (n : nat) : string :=
  ("Analysis complete for " ++ string_of_nat n ++ " text(s)!")%string.

(** [texts.map(text => analyzeSentiment(text))]: every analysis is started,
    in input order, before any is awaited. *)
Definition start_all (svc : Services) (texts : list string)
  : list (Promise SentimentAnalysisResult * list GeminiService.Request) :=
  map (fun it => analyzeSentiment svc (fst it) (snd it))
      (combine (seq 0 (length texts)) texts).

(** [handleAnalyze(input)], from the state at the call to the state when
    the handler has run to its end, with the backend requests issued. *)
Definition handleAnalyze (svc : Services) (input : Input) (st : State)
  : State * list GeminiService.Request :=
  let texts := match input with Batch l => firstn 10 l | Single t => [t] end in
  match find (fun t => negb (valid (isValidTextInput t))) texts with
  | Some t => (setApiStatus error (message (isValidTextInput t)) st, [])
  | None =>
      let analysesToRun := length texts in
      if MAX_ANALYSES <? analysisCount st + analysesToRun then
        let remaining := (Z.of_nat MAX_ANALYSES - Z.of_nat (analysisCount st))%Z in
        (setApiStatus error (quota_message remaining) st, [])
      else
        let st := setIsLoading true st in
        let st := setMoodEnhancers None st in
        let st :=
          setApiStatus loading
            ("Analyzing " ++ string_of_nat (length texts) ++ " text(s)...")%string st in
        let started := start_all svc texts in
        let calls := concat (map snd started) in
        match Promise_all (map fst started) with
        | Fulfilled newResults =>
            let st := setResults (fun prev => newResults ++ prev) st in
            let st := setAnalysisCount (fun prev => prev + length newResults) st in
            match newResults with
            | [] =>
                (* reading [newResults[0].sentiment] throws; the catch clause runs *)
                (setIsLoading false (setApiStatus error analysis_failed_message st), calls)
            | first :: _ =>
                let st := setCurrentSentiment (sentiment first) st in
                let st := setApiStatus success (complete_message (length newResults)) st in
                if length newResults =? 1 then
                  let (enhancers, more) :=
                    getMoodEnhancers svc (length texts) (sentiment first) (Types.text first) in
                  match enhancers with
                  | Fulfilled e =>
                      (setIsLoading false (setMoodEnhancers (Some e) st), calls ++ more)
                  | Rejected _ => (setIsLoading false st, calls ++ more)
                  end
                else (setIsLoading false st, calls)
            end
        | Rejected _ =>
            (setIsLoading false (setApiStatus error analysis_failed_message st), calls)
        end
  end.

Definition comparison_limit_message : string :=
  "You've reached your usage limit for this session, so a comparison can't be run.".

Definition comparison_default_error : string :=
  "There was an issue comparing the texts. Please check your input and try again.".

(** [handleCompare(textA, textB)]. *)
Definition handleCompare (svc : Services) (textA textB : string) (st : State)
  : State * list GeminiService.Request :=
  if MAX_ANALYSES <=? analysisCount st then
    (setApiStatus error comparison_limit_message st, [])
  else
    let validationA := isValidTextInput textA in
    if negb (valid validationA) then
      (setApiStatus error ("Text A: " ++ message validationA)%string st, [])
    else
      let validationB := isValidTextInput textB in
      if negb (valid validationB) then
        (setApiStatus error ("Text B: " ++ message validationB)%string st, [])
      else
        let st := setIsLoading true st in
        let st :=
          setComparisonModalState
            {| isOpen := true; result := VNull; modal_isLoading := true;
               modal_error := None |} st in
        let (outcome, calls) := compareSentiments svc 0 textA textB in
        match outcome with
        | Fulfilled r =>
            let st :=
              setComparisonModalState
                {| isOpen := true; result := r; modal_isLoading := false;
                   modal_error := None |} st in
            let st := setAnalysisCount (fun prev => prev + 1) st in
            (setIsLoading false st, calls)
        | Rejected m =>
            let st :=
              setComparisonModalState
                {| isOpen := true; result := VNull; modal_isLoading := false;
                   modal_error :=
                     Some (if String.eqb m "" then comparison_default_error else m) |} st in
            (setIsLoading false st, calls)
        end.

(** A request of the user. The input panel starts none while [isLoading]
    holds, so the handlers run one after the other, each to its end. *)
Inductive Call : Type :=
| Analyze (input : Input)
| Compare (textA textB : string).

Definition handle (svc : Services) (c : Call) (st : State) : State * list GeminiService.Request :=
  match c with
  | Analyze input => handleAnalyze svc input st
  | Compare textA textB => handleCompare svc textA textB st
  end.

(** A session: each call with the service as it behaves during that call. *)
Fixpoint run (calls : list (Services * Call)) (st : State) : State :=
  match calls with
  | [] => st
  | (svc, c) :: rest => run rest (fst (handle svc c st))
  end.

End App.

(** ** Exact values of numbers *)

Module Exact.

Import QArith_base.
Local Open Scope Q_scope.

(** The value of a finite binary64 number, as a rational. *)
Definition exact (x : float) : option Q :=
  match Prim2SF x with
  | S754_zero _ => Some 0
  | S754_finite s m e => Some ((if s then -1 else 1) * inject_Z (Zpos m) * Qpower 2 e)
  | _ => None
  end.

(** [x] is the number [q] up to the rounding of binary64 arithmetic: they
    differ by at most 10^-15. *)
Definition close (x : float) (q : Q) : bool :=
  match exact x with
  | Some y => Qle_bool (Qabs.Qabs (y - q)) (1 # 1000000000000000)
  | None => false
  end.

(** min(0.95, 0.70 + 0.05 * count), in exact arithmetic. *)
Definition ideal_confidence (count : nat) : Q :=
  Qminmax.Qmin (95 # 100) ((70 # 100) + (5 # 100) * inject_Z (Z.of_nat count)).

End Exact.

(** ** Vocabulary of the properties *)

Module Spec.

Import GeminiService.

(** The backend fails for a request: no API key, or the call rejects, or
    the answer is not JSON. *)
Definition backend_failure (env : Env) (slot : nat) (request : Request) : bool :=
  negb (getAiClient env) ||
  match generateContent env slot request with
  | CallFails | NotJson => true
  | Json _ => false
  end.

(** The characters of a string. *)
Definition chars (s : string) : list ascii := list_ascii_of_string s.

(** A text breaks a rule of the input validation: it has no letter, or it
    has a full stop, an apostrophe or a double quote. *)
Definition breaks_a_rule (t : string) : Prop :=
  (forall c, In c (chars t) -> is_ascii_letter c = false) \/
  In "."%char (chars t) \/ In "'"%char (chars t) \/ In dquote (chars t).

(** The number held by a property of an object. *)
Definition number_at (v : Value) (k : string) : option float :=
  match get v k with
  | Some (VNum x) => Some x
  | _ => None
  end.

(** The sum of the three scores, added in the order of the interface. *)
Definition scores_sum (r : SentimentAnalysisResult) : option float :=
  match number_at (scores r) "positive", number_at (scores r) "negative",
        number_at (scores r) "neutral" with
  | Some p, Some n, Some u => Some (PrimFloat.add (PrimFloat.add p n) u)
  | _, _, _ => None
  end.

(** [(1 - confidence) / 2]. *)
Definition rest_share (confidence : float) : float :=
  PrimFloat.div (PrimFloat.sub 1%float confidence) 2%float.

(** [s.repeat(n)]. *)
Fixpoint repeat_string (s : string) (n : nat) : string :=
  match n with
  | 0 => EmptyString
  | S n' => (s ++ repeat_string s n')%string
  end.

(** Every character of [s] satisfies [p]. *)
Definition all_chars (p : ascii -> bool) (s : string) : bool := forallb p (chars s).

(** The characters of the text love followed by a space. *)
Definition love_chars (c : ascii) : bool := existsb (Ascii.eqb c) (chars "love ").

(** The confidences the classifier can produce: the neutral one, and one
    for each possible number of lexicon hits. *)
Definition possible_confidences : list float :=
  0.75%float :: map confidence_of (seq 0 11).

(** The texts a call of [handleAnalyze] works on: at most ten. *)
Definition texts_of (input : App.Input) : list string :=
  match input with
  | App.Batch l => firstn 10 l
  | App.Single t => [t]
  end.

(** The first text that fails the validation, if any. *)
Definition first_invalid (texts : list string) : option string :=
  find (fun t => negb (App.valid (App.isValidTextInput t))) texts.

(** The message of the rule a text breaks. *)
Definition rule_message (t : string) : string :=
  if test_class is_ascii_letter t then App.punctuation_message
  else App.no_letters_message.

(** The quota units of a call: one per text to analyze, one per comparison. *)
Definition units (c : App.Call) : nat :=
  match c with
  | App.Analyze input => length (texts_of input)
  | App.Compare _ _ => 1
  end.

(** The texts of a call that the validation looks at. *)
Definition texts_checked (c : App.Call) : list string :=
  match c with
  | App.Analyze input => texts_of input
  | App.Compare textA textB => [textA; textB]
  end.

(** A call passes validation and admission. *)
Definition admitted (c : App.Call) (st : App.State) : bool :=
  match c with
  | App.Analyze input =>
      forallb (fun t => App.valid (App.isValidTextInput t)) (texts_of input) &&
      (App.analysisCount st + length (texts_of input) <=? App.MAX_ANALYSES)
  | App.Compare textA textB =>
      (App.analysisCount st <? App.MAX_ANALYSES) &&
      App.valid (App.isValidTextInput textA) &&
      App.valid (App.isValidTextInput textB)
  end.

(** The analyses of a call that complete: the analyses of an admitted
    request that fulfil, or the comparison of an admitted request if it
    fulfils. *)
Definition completed (env : Env) (c : App.Call) (st : App.State) : nat :=
  if admitted c st then
    match c with
    | App.Analyze input =>
        length (filter is_fulfilled
                  (map fst (App.start_all (App.geminiService env) (texts_of input))))
    | App.Compare textA textB =>
        if is_fulfilled (fst (compareSentiments env 0 textA textB)) then 1 else 0
    end
  else 0.

(** A session against the real service: each call with the environment it
    runs in. *)
Definition session (calls : list (Env * App.Call)) : list (App.Services * App.Call) :=
  map (fun ec => (App.geminiService (fst ec), snd ec)) calls.

Fixpoint completed_total (calls : list (Env * App.Call)) (st : App.State) : nat :=
  match calls with
  | [] => 0
  | (env, c) :: rest =>
      completed env c st
      + completed_total rest (fst (App.handle (App.geminiService env) c st))
  end.

(** The message of a rejection for want of quota, or before that for an
    invalid text. *)
Definition rejection_message (c : App.Call) (st : App.State) : string :=
  match c with
  | App.Analyze input =>
      match first_invalid (texts_of input) with
      | Some t => App.message (App.isValidTextInput t)
      | None =>
          App.quota_message
            (Z.of_nat App.MAX_ANALYSES - Z.of_nat (App.analysisCount st))%Z
      end
  | App.Compare _ _ => App.comparison_limit_message
  end.

(** The message of a rejection by the validation. *)
Definition validation_message (c : App.Call) : string :=
  match c with
  | App.Analyze input =>
      match first_invalid (texts_of input) with
      | Some t => App.message (App.isValidTextInput t)
      | None => ""
      end
  | App.Compare textA textB =>
      if negb (App.valid (App.isValidTextInput textA))
      then ("Text A: " ++ App.message (App.isValidTextInput textA))%string
      else ("Text B: " ++ App.message (App.isValidTextInput textB))%string
  end.

(** The value of a property, [undefined] when the read throws. *)
Definition property (v : Value) (k : string) : Value :=
  match get v k with
  | Some x => x
  | None => VUndefined
  end.

Definition is_sentiment_request (q : Request) : bool :=
  match q with SentimentRequest _ => true | _ => false end.

End Spec.

(** ** Environments and states of the worked examples *)

Module Examples.

Import GeminiService.

(** No API key is configured. *)
Definition no_key : Env :=
  {| API_KEY := None;
     generateContent := fun _ _ => CallFails;
     clock := fun _ => "2025-01-01T00:00:00.000Z" |}.

(** A key is configured and every call rejects. *)
Definition offline : Env :=
  {| API_KEY := Some "key";
     generateContent := fun _ _ => CallFails;
     clock := fun _ => "2025-01-01T00:00:00.000Z" |}.

(** The backend answers every request with the empty JSON object. *)
Definition answers_empty_object : Env :=
  {| API_KEY := Some "key";
     generateContent := fun _ _ => Json (VObj []);
     clock := fun _ => "2025-01-01T00:00:00.000Z" |}.

(** The application state after [n] analyses were counted. *)
Definition with_count (n : nat) : App.State :=
  App.setAnalysisCount (fun _ => n) App.initial.

(** A service whose analysis of the text [bad] rejects, and which is the
    real service otherwise. *)
Definition rejecting (bad : string) (env : Env) : App.Services :=
  {| App.analyzeSentiment := fun slot t =>
       if String.eqb t bad then (Rejected "unexpected", [])
       else analyzeSentiment env slot t;
     App.getMoodEnhancers := getMoodEnhancers env;
     App.compareSentiments := compareSentiments env |}.

(** The backend answers every request with an object whose label is outside
    the enumeration and whose confidence is outside the unit interval. *)
Definition answers_out_of_range : Env :=
  {| API_KEY := Some "key";
     generateContent := fun _ _ =>
       Json (VObj [("sentiment", VStr "angry"); ("confidence", VNum 7%float)]);
     clock := fun _ => "2025-01-01T00:00:00.000Z" |}.

(** Fifteen valid texts. *)
Definition fifteen_texts : list string :=
  ["a"; "b"; "c"; "d"; "e"; "f"; "g"; "h"; "i"; "j"; "k"; "l"; "m"; "n"; "o"].

(** A session of five calls: an analysis without API key, a batch of two
    answered by the backend, a comparison that fails, a comparison that is
    answered, and an analysis of an invalid text. *)
Definition a_session : list (Env * App.Call) :=
  [(no_key, App.Analyze (App.Single "I love this!"));
   (answers_empty_object, App.Analyze (App.Batch ["good"; "bad"]));
   (offline, App.Compare "good" "bad");
   (answers_empty_object, App.Compare "good" "bad");
   (no_key, App.Analyze (App.Single "1234"))].

End Examples.

(** ** The deeper analysis ([performAdvancedAnalysis], [handleDeeperAnalysis]) *)

Module Advanced.

Import GeminiService.

Definition missing_key_message : string := "API_KEY environment variable not set.".

(** [performAdvancedAnalysis(text)], which has no [try]: every failure
    rejects. [respond] is the backend's answer to the advanced prompt for an
    escaped text; the requests issued are listed by their escaped text. The
    message of an error raised by the client library or by [JSON.parse] is
    not modelled (it is the empty string here); nothing reads it. *)
Definition performAdvancedAnalysis (env : Env) (respond : string -> Response) (text : string)
  : Promise Value * list string :=
  if getAiClient env then
    let escapedText := escapeForPrompt text in
    (match respond escapedText with
     | CallFails | NotJson => Rejected ""
     | Json v => Fulfilled v
     end, [escapedText])
  else (Rejected missing_key_message, []).

(** The [modalState] hook of [App]. *)
Record ModalState : Type := {
  isOpen : bool;
  selectedResult : option SentimentAnalysisResult;
  advancedData : Value;
  isLoading : bool;
  error : option string
}.

(** The [onClose] of the modal. *)
Definition closed : ModalState :=
  {| isOpen := false; selectedResult := None; advancedData := VNull;
     isLoading := false; error := None |}.

Definition deeper_failed_message : string :=
  "We couldn't generate the deeper analysis at this moment. Please try again.".

(** [handleDeeperAnalysis(result)]. [perform] is the imported
    [performAdvancedAnalysis]; [meanwhile] is what other handlers did to the
    modal state while the analysis was awaited (nothing, or closing it),
    since the last update works on the state of that moment. *)
Definition handleDeeperAnalysis
  (perform : string -> Promise Value * list string)
  (meanwhile : ModalState -> ModalState)
  (result : SentimentAnalysisResult) : ModalState * list string :=
  let opened :=
    {| isOpen := true; selectedResult := Some result; advancedData := VNull;
       isLoading := true; error := None |} in
  let (outcome, calls) := perform (Types.text result) in
  let s := meanwhile opened in
  match outcome with
  | Fulfilled data =>
      ({| isOpen := isOpen s; selectedResult := selectedResult s;
          advancedData := data; isLoading := false; error := error s |}, calls)
  | Rejected _ =>
      ({| isOpen := isOpen s; selectedResult := selectedResult s;
          advancedData := advancedData s; isLoading := false;
          error := Some deeper_failed_message |}, calls)
  end.

End Advanced.

(** ** The input panel ([InputSection]) *)

Module InputSection.

Inductive ActiveTab : Type :=
| TextInput | FileUpload | BatchProcessing | VoiceInput | Compare.

(** The state hooks of the panel that the click handler reads. *)
Record Inputs : Type := {
  activeTab : ActiveTab;
  textInput : string;
  batchInput : string;
  compareTextA : string;
  compareTextB : string
}.

(** [s.trimStart()]: white space is the class [\s]. *)
Fixpoint trimStart (s : string) : string :=
  match s with
  | EmptyString => EmptyString
  | String c s' => if is_space_char c then trimStart s' else s
  end.

(** [s.trimEnd()]. *)
Fixpoint trimEnd (s : string) : string :=
  match s with
  | EmptyString => EmptyString
  | String c s' =>
      match trimEnd s' with
      | EmptyString => if is_space_char c then EmptyString else String c EmptyString
      | rest => String c rest
      end
  end.

(** [s.trim()]. *)
Definition trim (s : string) : string := trimStart (trimEnd s).

(** The line feed, U+000A. *)
Definition newline : ascii := ascii_of_nat 10.

(** [s.split('\n')]; [cur] is the line being read, reversed. *)
Fixpoint split_lines_aux (s : string) (cur : list ascii) : list string :=
  match s with
  | EmptyString => [string_of_list_ascii (rev cur)]
  | String c s' =>
      if Ascii.eqb c newline
      then string_of_list_ascii (rev cur) :: split_lines_aux s' []
      else split_lines_aux s' (c :: cur)
  end.

Definition split_lines (s : string) : list string := split_lines_aux s [].

(** [Boolean(s)] for a string: it is not empty. *)
Definition nonempty (s : string) : bool := negb (String.eqb s "").

(** What a click does: nothing, or a call of [onAnalyze] or [onCompare]. *)
Inductive Action : Type :=
| Nothing
| OnAnalyze (input : App.Input)
| OnCompare (textA textB : string).

(** [handleAnalyzeClick()], with the props [isLoading], [analysisCount] and
    [maxAnalyses] of the panel. *)
Definition handleAnalyzeClick (isLoading : bool) (analysisCount maxAnalyses : nat)
  (inputs : Inputs) : Action :=
  let limitReached := maxAnalyses <=? analysisCount in
  if isLoading || limitReached then Nothing
  else
    match activeTab inputs with
    | TextInput | FileUpload | VoiceInput =>
        if nonempty (trim (textInput inputs))
        then OnAnalyze (App.Single (textInput inputs)) else Nothing
    | BatchProcessing =>
        if nonempty (trim (batchInput inputs))
        then OnAnalyze
               (App.Batch (filter nonempty (map trim (split_lines (batchInput inputs)))))
        else Nothing
    | Compare =>
        if nonempty (trim (compareTextA inputs)) && nonempty (trim (compareTextB inputs))
        then OnCompare (compareTextA inputs) (compareTextB inputs) else Nothing
    end.

(** A click on the panel as [App] renders it, followed by the handler it
    calls. *)
Definition click (svc : App.Services) (inputs : Inputs) (st : App.State)
  : App.State * list GeminiService.Request :=
  match handleAnalyzeClick (App.isLoading st) (App.analysisCount st) App.MAX_ANALYSES inputs with
  | Nothing => (st, [])
  | OnAnalyze input => App.handleAnalyze svc input st
  | OnCompare textA textB => App.handleCompare svc textA textB st
  end.

End InputSection.

(** ** Further vocabulary *)

Module Facts.

Import GeminiService.

(** How often a word occurs in a list of words. *)
Definition occurrences (k : string) (l : list string) : nat :=
  count_occ string_dec l k.

(** The property names of a [wordCount]. *)
Definition keys (o : WordCount) : list string := map fst o.



(** What [wordCount] holds for a name after the words [ws]: nothing for
    [__proto__] and for a name that did not occur, a string for
    [constructor], and the number of occurrences otherwise. *)
Definition expected (k : string) (ws : list string) : option Count :=
  if String.eqb k "__proto__" || (occurrences k ws =? 0) then None
  else if String.eqb k "constructor" then Some NotANumber
  else Some (Times (occurrences k ws)).


(** A lower-case letter, a digit or the underscore. *)
Definition is_lower_word_char (c : ascii) : bool :=
  in_range 97 122 c || in_range 48 57 c || (nat_of_ascii c =? 95).

(** The parsed answer has every field of the response schema, with its
    type, its enumeration and its range. *)
Definition conforms (v : Value) : bool :=
  is_sentiment_value (Spec.property v "sentiment") &&
  is_unit_number (Spec.property v "confidence") &&
  is_scores (Spec.property v "scores") &&
  is_keywords (Spec.property v "keywords") &&
  is_string_value (Spec.property v "explanation") &&
  match Spec.property v "sentenceBreakdown" with
  | VArr items => forallb is_breakdown_item items
  | _ => false
  end.

Definition is_mood_request (q : Request) : bool :=
  match q with MoodRequest _ _ => true | _ => false end.

(** Every double quote of the string stands after a backslash; [prev] tells
    whether the character before the string is a backslash. *)
Fixpoint quotes_escaped (prev : bool) (s : string) : bool :=
  match s with
  | EmptyString => true
  | String c s' =>
      (if Ascii.eqb c dquote then prev else true) &&
      quotes_escaped (Ascii.eqb c "\"%char) s'
  end.

(** The number of double quotes of a string. *)
Definition quotes (s : string) : nat :=
  length (filter (Ascii.eqb dquote) (Spec.chars s)).

End Facts.

(** ** Inputs of the further examples *)

Module MoreExamples.

Import GeminiService.

(** The backend answers every request with a result that follows the schema. *)
Definition conforming_answer : Value :=
  VObj [("sentiment", VStr "positive");
        ("confidence", VNum 0.5%float);
        ("scores",
         VObj [("positive", VNum 0.5%float); ("negative", VNum 0.25%float);
               ("neutral", VNum 0.25%float)]);
        ("keywords", VArr [VStr "day"]);
        ("explanation", VStr "Cheerful");
        ("sentenceBreakdown", VArr [])].

Definition answers_conforming : Env :=
  {| API_KEY := Some "key";
     generateContent := fun _ _ => Json conforming_answer;
     clock := fun _ => "2025-01-01T00:00:00.000Z" |}.

(** The backend answers every request with [null]. *)
Definition answers_null : Env :=
  {| API_KEY := Some "key";
     generateContent := fun _ _ => Json VNull;
     clock := fun _ => "2025-01-01T00:00:00.000Z" |}.

(** The real service, but with a mood enhancer that rejects. *)
Definition without_mood (env : Env) : App.Services :=
  {| App.analyzeSentiment := analyzeSentiment env;
     App.getMoodEnhancers := fun _ _ _ => (Rejected "no mood", []);
     App.compareSentiments := compareSentiments env |}.

(** A result of the history. *)
Definition a_result : SentimentAnalysisResult := createFallbackAnalysis "then" "good day".

(** A batch field of three lines, the second of them blank. *)
Definition three_lines : string :=
  ("  good day " ++ String InputSection.newline ("   " ++ String InputSection.newline "bad day"))%string.

Definition batch_panel : InputSection.Inputs :=
  {| InputSection.activeTab := InputSection.BatchProcessing;
     InputSection.textInput := "";
     InputSection.batchInput := three_lines;
     InputSection.compareTextA := "";
     InputSection.compareTextB := "" |}.

End MoreExamples.

(** * Properties *)

Import Spec.

(** ** Strings *)

Section StringFacts.

Lemma prefix_app (w rest : string) : String.prefix w (w ++ rest) = true.
Proof.
  induction w as [|c w IH]; simpl.
  - now destruct rest.
  - destruct (ascii_dec c c) as [_|ne]; [exact IH | now destruct ne].
Qed.

Lemma prefix_split (w s : string) :
  String.prefix w s = true -> exists rest, s = (w ++ rest)%string.
Proof.
  revert s; induction w as [|c w IH]; intros s H.
  - now exists s.
  - destruct s as [|d s]; simpl in H; [discriminate|].
    destruct (ascii_dec c d) as [->|]; [|discriminate].
    destruct (IH _ H) as [rest ->]. now exists rest.
Qed.

(** [includes] is the substring relation. *)
Lemma includes_spec (s w : string) :
  includes s w = true <-> exists a b, s = (a ++ w ++ b)%string.
Proof.
  split.
  - induction s as [|c s IH]; cbn [includes]; rewrite orb_true_iff; intros [H|H].
    + destruct (prefix_split _ _ H) as [b E]. now exists EmptyString, b.
    + discriminate.
    + destruct (prefix_split _ _ H) as [b E]. now exists EmptyString, b.
    + destruct (IH H) as (a & b & ->). now exists (String c a), b.
  - intros (a & b & ->). induction a as [|c a IH].
    + change (EmptyString ++ w ++ b)%string with (w ++ b)%string.
      destruct (w ++ b)%string eqn:E; cbn [includes]; rewrite <- E, prefix_app; reflexivity.
    + change (String c a ++ w ++ b)%string with (String c (a ++ w ++ b)).
      cbn [includes]. rewrite IH. apply orb_true_r.
Qed.

Lemma toLowerCase_app (a b : string) :
  toLowerCase (a ++ b) = (toLowerCase a ++ toLowerCase b)%string.
Proof. induction a as [|c a IH]; simpl; [reflexivity | now rewrite IH]. Qed.

Lemma chars_app (a b : string) : chars (a ++ b) = chars a ++ chars b.
Proof. induction a as [|c a IH]; simpl; [reflexivity | unfold chars in *; simpl; now rewrite IH]. Qed.

Lemma all_chars_app (p : ascii -> bool) (a b : string) :
  all_chars p (a ++ b) = all_chars p a && all_chars p b.
Proof. unfold all_chars. now rewrite chars_app, forallb_app. Qed.

(** A substring has only characters of the string. *)
Lemma includes_all_chars (p : ascii -> bool) (s w : string) :
  all_chars p s = true -> includes s w = true -> all_chars p w = true.
Proof.
  intros Hs Hi. apply includes_spec in Hi as (a & b & ->).
  rewrite !all_chars_app in Hs.
  apply andb_true_iff in Hs as [_ Hs]. now apply andb_true_iff in Hs as [Hs _].
Qed.

Lemma all_chars_repeat (p : ascii -> bool) (u : string) (n : nat) :
  all_chars p u = true -> all_chars p (repeat_string u n) = true.
Proof.
  intros Hu. induction n as [|n IH]; [reflexivity|].
  simpl. now rewrite all_chars_app, Hu, IH.
Qed.

(** [test_class] finds a character of the class. *)
Lemma test_class_spec (cls : ascii -> bool) (s : string) :
  test_class cls s = true <-> exists c, In c (chars s) /\ cls c = true.
Proof.
  unfold chars. induction s as [|c s IH]; simpl.
  - split; [discriminate | now intros (c & [] & _)].
  - rewrite orb_true_iff, IH. split.
    + intros [H|(d & Hd & H)]; [exists c | exists d]; auto.
    + intros (d & [<-|Hd] & H); [now left | right; now exists d].
Qed.

End StringFacts.

(** ** The fallback classifier *)

Section Fallback.

Import GeminiService.

Lemma filter_length_le {A} (f : A -> bool) (l : list A) : length (filter f l) <= length l.
Proof. induction l as [|x l IH]; simpl; [lia | destruct (f x); simpl; lia]. Qed.

Lemma positiveCount_le (text : string) : positiveCount text <= 10.
Proof. unfold positiveCount. apply (filter_length_le _ positiveWords). Qed.

Lemma negativeCount_le (text : string) : negativeCount text <= 9.
Proof. unfold negativeCount. apply (filter_length_le _ negativeWords). Qed.

Lemma confidence_of_possible (k : nat) : k <= 10 -> In (confidence_of k) possible_confidences.
Proof.
  intros Hk. right. apply in_map. apply in_seq. lia.
Qed.

(** The three outcomes of the decision rule. *)
Lemma classify_cases (text : string) :
  let pc := positiveCount text in
  let nc := negativeCount text in
  (nc < pc /\ classify text = (Positive, confidence_of pc)) \/
  (pc < nc /\ classify text = (Negative, confidence_of nc)) \/
  (pc = nc /\ classify text = (Neutral, 0.75%float)).
Proof.
  intros pc nc. unfold classify. fold pc nc.
  destruct (nc <? pc) eqn:E1.
  - left. apply Nat.ltb_lt in E1. auto.
  - destruct (pc <? nc) eqn:E2.
    + right; left. apply Nat.ltb_lt in E2. auto.
    + right; right. apply Nat.ltb_ge in E1, E2. split; [lia | reflexivity].
Qed.

Lemma classify_possible (text : string) : In (snd (classify text)) possible_confidences.
Proof.
  pose proof (positiveCount_le text). pose proof (negativeCount_le text).
  destruct (classify_cases text) as [[_ ->]|[[_ ->]|[_ ->]]]; simpl snd.
  - apply confidence_of_possible; lia.
  - apply confidence_of_possible; lia.
  - now left.
Qed.

(** What holds of every confidence the classifier can produce holds of the
    confidence of every text. *)
Lemma for_possible (P : float -> Prop) :
  Forall P possible_confidences -> forall text, P (snd (classify text)).
Proof.
  intros H text. rewrite Forall_forall in H. apply H, classify_possible.
Qed.

Ltac each_possible :=
  unfold possible_confidences; cbn [map seq];
  repeat (apply Forall_cons; [vm_compute; repeat split; reflexivity|]);
  apply Forall_nil.

Lemma confidence_in_unit (text : string) :
  is_unit_number (VNum (snd (classify text))) = true.
Proof. apply (for_possible (fun c => is_unit_number (VNum c) = true)). each_possible. Qed.

Lemma scores_in_unit (text : string) (label sentiment : Sentiment) :
  is_unit_number (VNum (score_for label sentiment (snd (classify text)))) = true.
Proof.
  apply (for_possible (fun c => is_unit_number (VNum (score_for label sentiment c)) = true)).
  destruct label, sentiment; each_possible.
Qed.

(** The three scores add up to exactly one, whichever label wins. *)
Lemma scores_add_up (text : string) (sentiment : Sentiment) :
  let c := snd (classify text) in
  PrimFloat.add
    (PrimFloat.add (score_for Positive sentiment c) (score_for Negative sentiment c))
    (score_for Neutral sentiment c) = 1%float.
Proof.
  apply (for_possible (fun c =>
    PrimFloat.add
      (PrimFloat.add (score_for Positive sentiment c) (score_for Negative sentiment c))
      (score_for Neutral sentiment c) = 1%float)).
  destruct sentiment; each_possible.
Qed.

Lemma createFallbackAnalysis_eq (ts text : string) :
  createFallbackAnalysis ts text =
  let sentiment := fst (classify text) in
  let confidence := snd (classify text) in
  {| text := text;
     sentiment := VStr (Sentiment_value sentiment);
     confidence := VNum confidence;
     scores :=
       VObj [("positive", VNum (score_for Positive sentiment confidence));
             ("negative", VNum (score_for Negative sentiment confidence));
             ("neutral", VNum (score_for Neutral sentiment confidence))];
     keywords := VArr (map VStr (extractKeywords text));
     explanation :=
       VStr ("Analysis based on keyword matching. The text seems to be "
               ++ Sentiment_value sentiment ++ ".")%string;
     sentenceBreakdown := VUndefined;
     timestamp := ts;
     apiUsed := fallback |}.
Proof. unfold createFallbackAnalysis. now destruct (classify text). Qed.

Lemma extractKeywords_length (text : string) : length (extractKeywords text) <= 5.
Proof. unfold extractKeywords. rewrite length_map. apply firstn_le_length. Qed.

Lemma keywords_are_strings (l : list string) : forallb is_string_value (map VStr l) = true.
Proof. induction l; simpl; auto. Qed.

(** The fallback analysis of any text is structurally valid. *)
Lemma createFallbackAnalysis_well_formed (ts text : string) :
  well_formed (createFallbackAnalysis ts text) = true.
Proof.
  rewrite createFallbackAnalysis_eq. unfold well_formed. cbn [sentiment confidence scores keywords explanation sentenceBreakdown].
  rewrite confidence_in_unit.
  unfold is_scores. cbn [lookup String.eqb Ascii.eqb Bool.eqb].
  rewrite !scores_in_unit.
  unfold is_keywords. rewrite keywords_are_strings, length_map.
  pose proof (extractKeywords_length text) as Hk. apply Nat.leb_le in Hk. rewrite Hk.
  now destruct (fst (classify text)).
Qed.

(** [analyzeSentiment] settles by fulfilling, whatever the backend does. *)
Lemma analyzeSentiment_fulfils (env : Env) (slot : nat) (text : string) :
  exists r, fst (analyzeSentiment env slot text) = Fulfilled r /\ Types.text r = text.
Proof.
  unfold analyzeSentiment.
  destruct (analyzeSentiment_try env slot text) as [[r|] calls] eqn:E; cbn [fst].
  - exists r. split; [reflexivity|].
    unfold analyzeSentiment_try in E. destruct (getAiClient env); [|discriminate].
    injection E as E _.
    destruct (generateContent _ _ _); try discriminate.
    repeat match type of E with
           | match ?x with _ => _ end = _ => destruct x; try discriminate
           end.
    injection E as <-. reflexivity.
  - eexists. split; [reflexivity|]. rewrite createFallbackAnalysis_eq. reflexivity.
Qed.

Lemma analyzeSentiment_on_failure (env : Env) (slot : nat) (text : string) :
  backend_failure env slot (SentimentRequest (escapeForPrompt text)) = true ->
  fst (analyzeSentiment env slot text)
  = Fulfilled (createFallbackAnalysis (clock env slot) text).
Proof.
  unfold backend_failure, analyzeSentiment, analyzeSentiment_try.
  destruct (getAiClient env); cbn [negb orb]; [|reflexivity].
  destruct (generateContent _ _ _); [reflexivity | reflexivity | discriminate].
Qed.

(** C1: when the backend fails for a text (no API key, a call that rejects,
    an answer that is not JSON), [analyzeSentiment] still fulfils, with the
    fallback analysis of the text, which is structurally valid and tagged
    [fallback]; and the fallback analysis of any text at all is structurally
    valid and tagged [fallback]. *)
Theorem analyze_degrades_to_fallback (env : Env) (slot : nat) (text : string) :
  backend_failure env slot (SentimentRequest (escapeForPrompt text)) = true ->
  (exists r,
      fst (analyzeSentiment env slot text) = Fulfilled r /\
      r = createFallbackAnalysis (clock env slot) text /\
      Types.text r = text /\ well_formed r = true /\ apiUsed r = fallback) /\
  (forall ts t,
      well_formed (createFallbackAnalysis ts t) = true /\
      apiUsed (createFallbackAnalysis ts t) = fallback).
Proof.
  intros Hfail. split.
  - exists (createFallbackAnalysis (clock env slot) text).
    split; [now apply analyzeSentiment_on_failure|].
    split; [reflexivity|].
    rewrite createFallbackAnalysis_well_formed, createFallbackAnalysis_eq.
    repeat split.
  - intros ts t. rewrite createFallbackAnalysis_well_formed, createFallbackAnalysis_eq.
    split; reflexivity.
Qed.

Lemma analyze_degrades_to_fallback_witness :
  backend_failure Examples.no_key 0 (SentimentRequest (escapeForPrompt "I love this!")) = true /\
  ((exists r,
      fst (analyzeSentiment Examples.no_key 0 "I love this!") = Fulfilled r /\
      r = createFallbackAnalysis (clock Examples.no_key 0) "I love this!" /\
      Types.text r = "I love this!" /\ well_formed r = true /\ apiUsed r = fallback) /\
   (forall ts t,
      well_formed (createFallbackAnalysis ts t) = true /\
      apiUsed (createFallbackAnalysis ts t) = fallback)).
Proof.
  split; [reflexivity|].
  apply (analyze_degrades_to_fallback Examples.no_key 0 "I love this!"). reflexivity.
Defined.

(** The confidence computed in binary64 is the one of the rule in exact
    arithmetic, up to rounding. *)
Lemma confidence_is_close (k : nat) :
  k <= 10 -> Exact.close (confidence_of k) (Exact.ideal_confidence k) = true.
Proof.
  intros Hk. do 11 (destruct k as [|k]; [vm_compute; reflexivity|]). lia.
Qed.

Lemma number_at_scores (label sentiment : Sentiment) (c : float) :
  number_at
    (VObj [("positive", VNum (score_for Positive sentiment c));
           ("negative", VNum (score_for Negative sentiment c));
           ("neutral", VNum (score_for Neutral sentiment c))])
    (Sentiment_value label)
  = Some (score_for label sentiment c).
Proof. destruct label; reflexivity. Qed.

(** C3: the decision rule of the fallback classifier; its confidence, which
    is min(0.95, 0.70 + 0.05 * winning count), or 0.75 on a tie, computed in
    binary64 and so equal to the exact value up to rounding; its scores (the
    winner gets the confidence, the two others half of the rest each, and
    the three add up to exactly one); and the analysis of the text
    I love this! when the backend fails. *)
Theorem fallback_decision_rule (ts text : string) :
  let r := createFallbackAnalysis ts text in
  let pc := positiveCount text in
  let nc := negativeCount text in
  (nc < pc ->
     sentiment r = VStr "positive" /\
     confidence r
     = VNum (Math_min 0.95%float
               (PrimFloat.add 0.7%float (PrimFloat.mul (num_of_nat pc) 0.05%float)))) /\
  (pc < nc ->
     sentiment r = VStr "negative" /\
     confidence r
     = VNum (Math_min 0.95%float
               (PrimFloat.add 0.7%float (PrimFloat.mul (num_of_nat nc) 0.05%float)))) /\
  (pc = nc -> sentiment r = VStr "neutral" /\ confidence r = VNum 0.75%float) /\
  (exists label c,
      sentiment r = VStr (Sentiment_value label) /\
      confidence r = VNum c /\
      number_at (scores r) (Sentiment_value label) = Some c /\
      (forall other, other <> label ->
         number_at (scores r) (Sentiment_value other) = Some (rest_share c)) /\
      scores_sum r = Some 1%float /\
      Exact.close c
        (if pc =? nc then QArith_base.Qmake 75 100
         else Exact.ideal_confidence (Nat.max pc nc)) = true) /\
  (forall env slot,
      backend_failure env slot (SentimentRequest (escapeForPrompt "I love this!")) = true ->
      exists r0,
        fst (analyzeSentiment env slot "I love this!") = Fulfilled r0 /\
        sentiment r0 = VStr "positive" /\
        confidence r0 = VNum 0.75%float /\
        apiUsed r0 = fallback).
Proof.
  intros r pc nc. subst r. rewrite createFallbackAnalysis_eq.
  cbv zeta. cbn [sentiment confidence scores].
  pose proof (classify_cases text) as Hc. cbn zeta in Hc. fold pc nc in Hc.
  repeat split.
  - destruct Hc as [[_ ->]|[[? _]|[? _]]]; [reflexivity | lia | lia].
  - destruct Hc as [[_ ->]|[[? _]|[? _]]]; [reflexivity | lia | lia].
  - destruct Hc as [[? _]|[[_ ->]|[? _]]]; [lia | reflexivity | lia].
  - destruct Hc as [[? _]|[[_ ->]|[? _]]]; [lia | reflexivity | lia].
  - destruct Hc as [[? _]|[[? _]|[_ ->]]]; [lia | lia | reflexivity].
  - destruct Hc as [[? _]|[[? _]|[_ ->]]]; [lia | lia | reflexivity].
  - exists (fst (classify text)), (snd (classify text)).
    split; [reflexivity|]. split; [reflexivity|].
    split; [|split; [|split]].
    + rewrite number_at_scores. unfold score_for.
      now destruct (fst (classify text)).
    + intros other Hne. rewrite number_at_scores. unfold score_for, rest_share.
      destruct (fst (classify text)), other; try reflexivity; now destruct Hne.
    + unfold scores_sum, number_at, get.
      cbn [scores lookup String.eqb Ascii.eqb Bool.eqb]. f_equal. apply scores_add_up.
    + pose proof (positiveCount_le text). pose proof (negativeCount_le text).
      fold pc nc in H, H0.
      destruct Hc as [[Hlt ->]|[[Hlt ->]|[Heq ->]]]; cbn [snd].
      * replace (pc =? nc) with false by (symmetry; apply Nat.eqb_neq; lia).
        rewrite Nat.max_l by lia. apply confidence_is_close. lia.
      * replace (pc =? nc) with false by (symmetry; apply Nat.eqb_neq; lia).
        rewrite Nat.max_r by lia. apply confidence_is_close. lia.
      * replace (pc =? nc) with true by (symmetry; apply Nat.eqb_eq; lia).
        vm_compute. reflexivity.
  - intros env slot Hfail. eexists. split; [now apply analyzeSentiment_on_failure|].
    repeat split.
Qed.

End Fallback.

(** ** Counting lexicon hits *)

Section LexiconCounts.

Import GeminiService.

Lemma filter_same {A} (f g : A -> bool) (l : list A) :
  (forall x, In x l -> f x = g x) -> filter f l = filter g l.
Proof.
  induction l as [|x l IH]; intros H; simpl; [reflexivity|].
  rewrite (H x (or_introl eq_refl)), IH; [reflexivity|].
  intros y Hy. apply H. now right.
Qed.

Lemma filter_hit {A} (f : A -> bool) (l : list A) (x : A) :
  In x l -> f x = true -> 1 <= length (filter f l).
Proof.
  intros Hin Hf. assert (Hx : In x (filter f l)) by (apply filter_In; auto).
  destruct (filter f l); [destruct Hx | simpl; lia].
Qed.

(** The hits of a lexicon in a text: its words that occur in the
    lower-cased text, each listed once. *)
Lemma hits_spec (lexicon : list string) (text : string) :
  NoDup lexicon ->
  let hits := filter (fun word => includes (toLowerCase text) word) lexicon in
  NoDup hits /\
  forall w, In w hits <->
            In w lexicon /\ exists a b, toLowerCase text = (a ++ w ++ b)%string.
Proof.
  intros Hnd hits. split.
  - now apply NoDup_filter.
  - intros w. unfold hits. rewrite filter_In, includes_spec. reflexivity.
Qed.

Lemma positiveWords_NoDup : NoDup positiveWords.
Proof.
  unfold positiveWords.
  repeat (apply NoDup_cons; [cbn [In]; intuition discriminate|]). apply NoDup_nil.
Qed.

Lemma negativeWords_NoDup : NoDup negativeWords.
Proof.
  unfold negativeWords.
  repeat (apply NoDup_cons; [cbn [In]; intuition discriminate|]). apply NoDup_nil.
Qed.

Lemma toLowerCase_repeat_love (n : nat) :
  toLowerCase (repeat_string "love " n) = repeat_string "love " n.
Proof.
  induction n as [|n IH]; [reflexivity|].
  cbn [repeat_string]. rewrite toLowerCase_app, IH. reflexivity.
Qed.

Lemma repeat_love_hits (n : nat) (word : string) :
  In word (positiveWords ++ negativeWords) ->
  includes (repeat_string "love " (S n)) word = String.eqb word "love".
Proof.
  intros Hin.
  destruct (String.eqb word "love") eqn:E.
  - apply String.eqb_eq in E as ->. apply includes_spec.
    exists EmptyString, (" " ++ repeat_string "love " n)%string. reflexivity.
  - destruct (includes _ word) eqn:Hi; [|reflexivity].
    apply (includes_all_chars love_chars) in Hi;
      [|apply all_chars_repeat; reflexivity].
    unfold positiveWords, negativeWords in Hin. cbn [app In] in Hin.
    repeat (destruct Hin as [<-|Hin]; [discriminate|]). destruct Hin.
Qed.

Lemma repeat_love_counts (n : nat) :
  positiveCount (repeat_string "love " (S n)) = 1 /\
  negativeCount (repeat_string "love " (S n)) = 0.
Proof.
  unfold positiveCount, negativeCount. cbv zeta. rewrite toLowerCase_repeat_love.
  split.
  - rewrite (filter_same _ (fun word => String.eqb word "love")); [reflexivity|].
    intros w Hw. apply repeat_love_hits, in_or_app. now left.
  - rewrite (filter_same _ (fun word => String.eqb word "love")); [reflexivity|].
    intros w Hw. apply repeat_love_hits, in_or_app. now right.
Qed.

Lemma sadly_hit (a b : string) : 1 <= negativeCount (a ++ "sadly" ++ b).
Proof.
  unfold negativeCount. cbv zeta. apply (filter_hit _ _ "sad").
  - unfold negativeWords. cbn [In]. tauto.
  - apply includes_spec. rewrite !toLowerCase_app.
    exists (toLowerCase a), ("ly" ++ toLowerCase b)%string. reflexivity.
Qed.

(** C10: the two counts are numbers of lexicon words that occur in the
    lower-cased text as substrings, each word counted once; so a text that
    repeats love any number of times has one positive hit and confidence
    0.75, and a text in which sadly occurs has a negative hit through sad. *)
Theorem lexicon_words_count_once :
  (forall text, exists hits,
      NoDup hits /\
      (forall w, In w hits <->
                 In w positiveWords /\ exists a b, toLowerCase text = (a ++ w ++ b)%string) /\
      positiveCount text = length hits) /\
  (forall text, exists hits,
      NoDup hits /\
      (forall w, In w hits <->
                 In w negativeWords /\ exists a b, toLowerCase text = (a ++ w ++ b)%string) /\
      negativeCount text = length hits) /\
  (forall ts n,
      positiveCount (repeat_string "love " (S n)) = 1 /\
      negativeCount (repeat_string "love " (S n)) = 0 /\
      sentiment (createFallbackAnalysis ts (repeat_string "love " (S n))) = VStr "positive" /\
      confidence (createFallbackAnalysis ts (repeat_string "love " (S n))) = VNum 0.75%float) /\
  (forall a b, 1 <= negativeCount (a ++ "sadly" ++ b)) /\
  (forall ts,
      ~ In "sadly" negativeWords /\
      negativeCount "sadly" = 1 /\ positiveCount "sadly" = 0 /\
      sentiment (createFallbackAnalysis ts "sadly") = VStr "negative" /\
      confidence (createFallbackAnalysis ts "sadly") = VNum 0.75%float).
Proof.
  split; [|split; [|split; [|split]]].
  - intros text. eexists. split; [|split].
    + apply (hits_spec positiveWords text positiveWords_NoDup).
    + apply (hits_spec positiveWords text positiveWords_NoDup).
    + reflexivity.
  - intros text. eexists. split; [|split].
    + apply (hits_spec negativeWords text negativeWords_NoDup).
    + apply (hits_spec negativeWords text negativeWords_NoDup).
    + reflexivity.
  - intros ts n. destruct (repeat_love_counts n) as [Hp Hn].
    split; [exact Hp|]. split; [exact Hn|].
    rewrite createFallbackAnalysis_eq. cbv zeta. cbn [sentiment confidence].
    unfold classify. rewrite Hp, Hn. split; reflexivity.
  - exact sadly_hit.
  - intros ts. split; [|repeat split].
    unfold negativeWords. cbn [In]. intuition discriminate.
Qed.

End LexiconCounts.

(** ** Validation and admission *)

Section Admission.

Import App.

(** The validation rejects exactly the texts that break a rule, with the
    message of the first rule broken. *)
Lemma isValidTextInput_spec (t : string) :
  (breaks_a_rule t <-> valid (isValidTextInput t) = false) /\
  (valid (isValidTextInput t) = false -> message (isValidTextInput t) = rule_message t).
Proof.
  unfold isValidTextInput, rule_message, breaks_a_rule.
  destruct (test_class is_ascii_letter t) eqn:El; cbn [negb].
  - destruct (test_class is_forbidden_punctuation t) eqn:Ep; cbn [valid message].
    + split; [|reflexivity]. split; [reflexivity|]. intros _. right.
      apply test_class_spec in Ep as (c & Hc & Hp).
      unfold is_forbidden_punctuation in Hp.
      apply orb_true_iff in Hp as [Hp|Hp]; [apply orb_true_iff in Hp as [Hp|Hp]|];
        apply Ascii.eqb_eq in Hp; subst c; auto.
    + split; [|discriminate]. split; [|discriminate].
      apply test_class_spec in El as (c & Hc & Hl).
      assert (Hnone : forall d, In d (chars t) -> is_forbidden_punctuation d = false).
      { intros d Hd. destruct (is_forbidden_punctuation d) eqn:E; [|reflexivity].
        assert (test_class is_forbidden_punctuation t = true)
          by (apply test_class_spec; eauto).
        congruence. }
      intros [H|[H|[H|H]]].
      * rewrite (H c Hc) in Hl. discriminate.
      * apply Hnone in H. discriminate.
      * apply Hnone in H. discriminate.
      * apply Hnone in H. vm_compute in H. discriminate.
  - cbn [valid message]. split; [|reflexivity]. split; [reflexivity|]. intros _. left.
    intros c Hc. destruct (is_ascii_letter c) eqn:E; [|reflexivity].
    assert (test_class is_ascii_letter t = true) by (apply test_class_spec; eauto).
    congruence.
Qed.

Lemma first_invalid_some (texts : list string) (t : string) :
  first_invalid texts = Some t -> In t texts /\ valid (isValidTextInput t) = false.
Proof.
  intros H. apply find_some in H as [Hin Hv]. split; [exact Hin|].
  now apply negb_true_iff in Hv.
Qed.

Lemma first_invalid_none (texts : list string) :
  first_invalid texts = None <->
  forallb (fun t => valid (isValidTextInput t)) texts = true.
Proof.
  unfold first_invalid. induction texts as [|t l IH]; simpl; [tauto|].
  destruct (valid (isValidTextInput t)); simpl; [exact IH | split; discriminate].
Qed.

Lemma first_invalid_exists (texts : list string) (t : string) :
  In t texts -> valid (isValidTextInput t) = false ->
  exists t', first_invalid texts = Some t'.
Proof.
  intros Hin Hv. destruct (first_invalid texts) eqn:E; [eauto|].
  apply first_invalid_none in E. rewrite forallb_forall in E.
  rewrite (E t Hin) in Hv. discriminate.
Qed.

Lemma handleAnalyze_invalid (svc : Services) (input : Input) (st : State) (t : string) :
  first_invalid (texts_of input) = Some t ->
  handleAnalyze svc input st
  = (setApiStatus error (message (isValidTextInput t)) st, []).
Proof.
  intros H. unfold handleAnalyze. fold (texts_of input).
  fold (first_invalid (texts_of input)). now rewrite H.
Qed.

Lemma handleAnalyze_over_quota (svc : Services) (input : Input) (st : State) :
  first_invalid (texts_of input) = None ->
  MAX_ANALYSES < analysisCount st + length (texts_of input) ->
  handleAnalyze svc input st
  = (setApiStatus error
       (quota_message (Z.of_nat MAX_ANALYSES - Z.of_nat (analysisCount st))%Z) st, []).
Proof.
  intros Hv Hq. unfold handleAnalyze. fold (texts_of input).
  fold (first_invalid (texts_of input)). rewrite Hv.
  apply Nat.ltb_lt in Hq. now rewrite Hq.
Qed.

Lemma handleCompare_at_limit (svc : Services) (textA textB : string) (st : State) :
  MAX_ANALYSES <= analysisCount st ->
  handleCompare svc textA textB st
  = (setApiStatus error comparison_limit_message st, []).
Proof.
  intros H. unfold handleCompare. apply Nat.leb_le in H. now rewrite H.
Qed.

(** C7 (as the code has it): a call whose units would take the counter
    over the limit is rejected: the state keeps its counter and changes only
    in its status, and no request is sent. For an analysis whose texts are
    valid the message states the remaining allowance; if a text is invalid
    the message is that of the validation; a comparison has a fixed message. *)
Theorem over_quota_is_rejected (svc : Services) (c : Call) (st : State) :
  MAX_ANALYSES < analysisCount st + units c ->
  handle svc c st = (setApiStatus error (rejection_message c st) st, []) /\
  analysisCount (fst (handle svc c st)) = analysisCount st /\
  (forall input,
      c = Analyze input -> first_invalid (texts_of input) = None ->
      status_message (apiStatus (fst (handle svc c st)))
      = quota_message (Z.of_nat MAX_ANALYSES - Z.of_nat (analysisCount st))%Z) /\
  (forall textA textB,
      c = Compare textA textB ->
      status_message (apiStatus (fst (handle svc c st))) = comparison_limit_message).
Proof.
  intros Hq.
  assert (E : handle svc c st = (setApiStatus error (rejection_message c st) st, [])).
  { destruct c as [input|textA textB]; cbn [handle units rejection_message] in *.
    - destruct (first_invalid (texts_of input)) as [t|] eqn:Ev.
      + now apply handleAnalyze_invalid.
      + now apply handleAnalyze_over_quota.
    - apply handleCompare_at_limit. lia. }
  rewrite E. cbn [fst]. repeat split.
  - intros input -> Hv. cbn [rejection_message]. now rewrite Hv.
  - now intros textA textB ->.
Qed.

Lemma over_quota_is_rejected_witness :
  MAX_ANALYSES
  < analysisCount (Examples.with_count 14) + units (Analyze (Batch ["a"; "b"; "c"])) /\
  status_message
    (apiStatus
       (fst (handle (geminiService Examples.offline) (Analyze (Batch ["a"; "b"; "c"]))
               (Examples.with_count 14))))
  = "You've reached your usage limit for this session. You can perform 1 more analysis." /\
  analysisCount
    (fst (handle (geminiService Examples.offline) (Analyze (Batch ["a"; "b"; "c"]))
            (Examples.with_count 14))) = 14.
Proof.
  assert (H : MAX_ANALYSES
              < analysisCount (Examples.with_count 14)
                + units (Analyze (Batch ["a"; "b"; "c"]))) by (vm_compute; lia).
  split; [exact H|].
  destruct (over_quota_is_rejected (geminiService Examples.offline)
              (Analyze (Batch ["a"; "b"; "c"])) (Examples.with_count 14) H)
    as (_ & Hcount & Hmsg & _).
  split; [|exact Hcount].
  rewrite (Hmsg _ eq_refl eq_refl). reflexivity.
Defined.

(** Against C7 as stated: a comparison at the limit is rejected with a
    message that does not state the remaining allowance, and an analysis over
    the limit with an invalid text is rejected with the validation message. *)
Lemma over_quota_message_counterexample :
  (MAX_ANALYSES < analysisCount (Examples.with_count 15) + 1 /\
   status_message
     (apiStatus
        (fst (handleCompare (geminiService Examples.offline) "good" "bad"
                (Examples.with_count 15))))
   <> quota_message (Z.of_nat MAX_ANALYSES - 15)%Z) /\
  (MAX_ANALYSES < analysisCount (Examples.with_count 14) + 3 /\
   status_message
     (apiStatus
        (fst (handleAnalyze (geminiService Examples.offline) (Batch ["a"; "b"; "1234"])
                (Examples.with_count 14))))
   <> quota_message (Z.of_nat MAX_ANALYSES - 14)%Z).
Proof.
  split; (split; [vm_compute; lia | vm_compute; discriminate]).
Qed.

(** C6 (as the code has it): a call one of whose texts breaks a rule sends
    no request and changes nothing but the status. For an analysis the
    message is the rule message of the first invalid text, without its
    position; for a comparison below the usage limit it is that message
    after the name of the text, A before B. *)
Theorem invalid_text_is_rejected (svc : Services) (c : Call) (st : State) (t : string) :
  In t (texts_checked c) -> breaks_a_rule t ->
  snd (handle svc c st) = [] /\
  (exists m, fst (handle svc c st) = setApiStatus error m st) /\
  ((forall textA textB, c = Compare textA textB -> analysisCount st < MAX_ANALYSES) ->
   fst (handle svc c st) = setApiStatus error (validation_message c) st /\
   match c with
   | Analyze input =>
       exists t', first_invalid (texts_of input) = Some t' /\
                  In t' (texts_of input) /\ breaks_a_rule t' /\
                  validation_message c = rule_message t'
   | Compare textA textB =>
       (breaks_a_rule textA /\
        validation_message c = ("Text A: " ++ rule_message textA)%string) \/
       (~ breaks_a_rule textA /\ breaks_a_rule textB /\
        validation_message c = ("Text B: " ++ rule_message textB)%string)
   end).
Proof.
  intros Hin Hbad.
  destruct c as [input|textA textB]; cbn [handle texts_checked] in *.
  - apply isValidTextInput_spec in Hbad.
    destruct (first_invalid_exists _ _ Hin Hbad) as [t' Ht'].
    rewrite (handleAnalyze_invalid svc input st t' Ht'). cbn [fst snd].
    split; [reflexivity|]. split; [eauto|]. intros _.
    cbn [validation_message]. rewrite Ht'. split; [reflexivity|].
    destruct (first_invalid_some _ _ Ht') as [Hin' Hv'].
    exists t'. repeat split; auto.
    + now apply isValidTextInput_spec.
    + now apply isValidTextInput_spec.
  - assert (Hone : valid (isValidTextInput textA) = false \/
                   (valid (isValidTextInput textA) = true /\
                    valid (isValidTextInput textB) = false)).
    { destruct (valid (isValidTextInput textA)) eqn:EA; [right|now left].
      split; [reflexivity|]. destruct Hin as [<-|[<-|[]]].
      - apply isValidTextInput_spec in Hbad. congruence.
      - now apply isValidTextInput_spec. }
    unfold handleCompare. cbn [validation_message].
    destruct (MAX_ANALYSES <=? analysisCount st) eqn:Eq.
    + cbn [fst snd]. split; [reflexivity|]. split; [eauto|].
      intros Hlim. apply Nat.leb_le in Eq. specialize (Hlim _ _ eq_refl). lia.
    + destruct Hone as [EA|[EA EB]]; rewrite EA; cbn [negb].
      * cbn [fst snd]. split; [reflexivity|]. split; [eauto|]. intros _.
        split; [reflexivity|]. left.
        split; [now apply isValidTextInput_spec|].
        f_equal. now apply isValidTextInput_spec.
      * rewrite EB. cbn [negb fst snd]. split; [reflexivity|]. split; [eauto|].
        intros _. split; [reflexivity|]. right.
        split; [|split].
        -- intros HA. apply isValidTextInput_spec in HA. congruence.
        -- now apply isValidTextInput_spec.
        -- f_equal. now apply isValidTextInput_spec.
Qed.

Lemma invalid_text_is_rejected_witness :
  In "1234" (texts_checked (Analyze (Batch ["hello"; "1234"]))) /\
  breaks_a_rule "1234" /\
  snd (handle (geminiService Examples.answers_empty_object)
         (Analyze (Batch ["hello"; "1234"])) initial) = [] /\
  fst (handle (geminiService Examples.answers_empty_object)
         (Analyze (Batch ["hello"; "1234"])) initial)
  = setApiStatus error no_letters_message initial.
Proof.
  assert (Hin : In "1234" (texts_checked (Analyze (Batch ["hello"; "1234"]))))
    by (cbn; tauto).
  assert (Hbad : breaks_a_rule "1234")
    by (apply isValidTextInput_spec; reflexivity).
  split; [exact Hin|]. split; [exact Hbad|].
  destruct (invalid_text_is_rejected (geminiService Examples.answers_empty_object)
              (Analyze (Batch ["hello"; "1234"])) initial "1234" Hin Hbad)
    as (Hcalls & _ & Hmsg).
  split; [exact Hcalls|].
  destruct Hmsg as [Hst _]; [discriminate|]. exact Hst.
Defined.

(** Against C6 as stated: two batches whose invalid text stands at different
    positions are rejected with the same state, so nothing in the rejection
    tells the position; and a batch whose eleventh text has no letter is not
    rejected at all. *)
Lemma batch_rejection_counterexample :
  handleAnalyze (geminiService Examples.offline) (Batch ["1234"; "hello"]) initial
  = handleAnalyze (geminiService Examples.offline) (Batch ["hello"; "1234"]) initial /\
  status_message
    (apiStatus
       (fst (handleAnalyze (geminiService Examples.offline) (Batch ["hello"; "1234"])
               initial)))
  = no_letters_message /\
  status
    (apiStatus
       (fst (handleAnalyze (geminiService Examples.offline)
               (Batch (firstn 10 Examples.fifteen_texts ++ ["1234"])) initial)))
  = success.
Proof. repeat split. Qed.

End Admission.

(** ** Running the handlers *)

Section Execution.

Import App.

Lemma Promise_all_fulfilled {A} (ps : list (Promise A)) (l : list A) :
  Promise_all ps = Fulfilled l -> ps = map Fulfilled l.
Proof.
  revert l; induction ps as [|[a|m] ps IH]; intros l H; simpl in H.
  - now injection H as <-.
  - destruct (Promise_all ps) as [l'|]; [|discriminate].
    injection H as <-. simpl. now rewrite (IH l' eq_refl).
  - discriminate.
Qed.

Lemma Promise_all_values {A} (l : list A) : Promise_all (map Fulfilled l) = Fulfilled l.
Proof. induction l as [|a l IH]; simpl; [reflexivity | now rewrite IH]. Qed.

Lemma Promise_all_rejected {A} (ps : list (Promise A)) :
  existsb (fun p => negb (is_fulfilled p)) ps = true ->
  exists m, Promise_all ps = Rejected m.
Proof.
  induction ps as [|[a|m] ps IH]; simpl; intros H.
  - discriminate.
  - destruct (IH H) as [m ->]. eauto.
  - eauto.
Qed.

Lemma filter_fulfilled {A} (l : list A) :
  length (filter is_fulfilled (map Fulfilled l)) = length l.
Proof. induction l as [|a l IH]; simpl; [reflexivity | now rewrite IH]. Qed.

(** The state after an admitted analysis request, by the settlement of
    its analyses. *)
Lemma handleAnalyze_admitted (svc : Services) (input : Input) (st : State) :
  first_invalid (texts_of input) = None ->
  analysisCount st + length (texts_of input) <= MAX_ANALYSES ->
  let st' := fst (handleAnalyze svc input st) in
  comparisonModalState st' = comparisonModalState st /\
  isLoading st' = false /\
  match Promise_all (map fst (start_all svc (texts_of input))) with
  | Fulfilled newResults =>
      results st' = newResults ++ results st /\
      analysisCount st' = analysisCount st + length newResults /\
      (newResults <> [] ->
       apiStatus st'
       = {| status := success;
            status_message := complete_message (length newResults) |}) /\
      (length newResults <> 1 ->
       snd (handleAnalyze svc input st)
       = concat (map snd (start_all svc (texts_of input))))
  | Rejected _ =>
      results st' = results st /\
      analysisCount st' = analysisCount st /\
      apiStatus st' = {| status := error; status_message := analysis_failed_message |}
  end.
Proof.
  intros Hv Hq. unfold handleAnalyze. fold (texts_of input).
  fold (first_invalid (texts_of input)). rewrite Hv.
  assert (Hq' : (MAX_ANALYSES <? analysisCount st + length (texts_of input)) = false)
    by (now apply Nat.ltb_ge).
  rewrite Hq'.
  destruct (Promise_all _) as [newResults|m].
  - destruct newResults as [|first rest].
    + cbn. repeat split; congruence.
    + destruct (length (first :: rest) =? 1) eqn:E1.
      * destruct (getMoodEnhancers svc _ _ _) as [[e|m] more]; cbn [fst snd];
          (repeat split; try reflexivity);
          apply Nat.eqb_eq in E1; congruence.
      * cbn [fst snd]. repeat split; reflexivity.
  - cbn. repeat split; reflexivity.
Qed.

(** With the real service every analysis of a batch fulfils, with a result
    for its own text. *)
Lemma real_analyses_fulfil (env : GeminiService.Env) (texts : list string) :
  exists rs,
    map fst (start_all (geminiService env) texts) = map Fulfilled rs /\
    map Types.text rs = texts.
Proof.
  unfold start_all. generalize 0 as k.
  induction texts as [|t l IH]; intros k; cbn [length seq combine map].
  - now exists [].
  - destruct (IH (S k)) as (rs & E1 & E2).
    destruct (analyzeSentiment_fulfils env k t) as (r & Er & Et).
    exists (r :: rs). cbn [map fst snd].
    change (analyzeSentiment (geminiService env) k t)
      with (GeminiService.analyzeSentiment env k t).
    now rewrite Er, E1, Et, E2.
Qed.

Lemma real_analyses_calls (env : GeminiService.Env) (texts : list string) :
  concat (map snd (start_all (geminiService env) texts))
  = if GeminiService.getAiClient env
    then map (fun t => GeminiService.SentimentRequest (GeminiService.escapeForPrompt t)) texts
    else [].
Proof.
  unfold start_all. generalize 0 as k.
  induction texts as [|t l IH]; intros k; cbn [length seq combine map concat].
  - now destruct (GeminiService.getAiClient env).
  - rewrite IH. cbn [fst snd].
    change (analyzeSentiment (geminiService env) k t)
      with (GeminiService.analyzeSentiment env k t).
    unfold GeminiService.analyzeSentiment, GeminiService.analyzeSentiment_try.
    destruct (GeminiService.getAiClient env); [|reflexivity].
    now destruct (match GeminiService.generateContent env k _ with
                  | GeminiService.Json _ => _ | _ => _ end).
Qed.

Lemma handleCompare_counts (svc : Services) (textA textB : string) (st : State) :
  let st' := fst (handleCompare svc textA textB st) in
  results st' = results st /\
  analysisCount st'
  = analysisCount st
    + (if admitted (Compare textA textB) st
       then (if is_fulfilled (fst (compareSentiments svc 0 textA textB)) then 1 else 0)
       else 0).
Proof.
  unfold handleCompare. cbn [admitted].
  rewrite Nat.ltb_antisym.
  destruct (MAX_ANALYSES <=? analysisCount st); cbn [negb andb fst];
    [cbn; split; [reflexivity | lia]|].
  destruct (valid (isValidTextInput textA)); cbn [negb andb fst];
    [|cbn; split; [reflexivity | lia]].
  destruct (valid (isValidTextInput textB)); cbn [negb andb fst];
    [|cbn; split; [reflexivity | lia]].
  destruct (compareSentiments svc 0 textA textB) as [[r|m] calls];
    cbn; split; reflexivity || lia.
Qed.

(** One call against the real service: the counter stays within the limit
    and grows by the analyses that completed. *)
Lemma handle_counts (env : GeminiService.Env) (c : Call) (st : State) :
  analysisCount st <= MAX_ANALYSES ->
  let st' := fst (handle (geminiService env) c st) in
  analysisCount st' <= MAX_ANALYSES /\
  analysisCount st' = analysisCount st + completed env c st.
Proof.
  intros Hle. destruct c as [input|textA textB]; cbn [handle]; cbv zeta.
  - unfold completed. cbn [admitted].
    destruct (first_invalid (texts_of input)) as [t|] eqn:Ev.
    + rewrite (handleAnalyze_invalid _ _ _ _ Ev). cbn [fst].
      destruct (first_invalid_some _ _ Ev) as [Hin Hv].
      assert (Hf : forallb (fun t => valid (isValidTextInput t)) (texts_of input) = false).
      { destruct (forallb _ _) eqn:E; [|reflexivity].
        rewrite forallb_forall in E. rewrite (E t Hin) in Hv. discriminate. }
      rewrite Hf. cbn. split; lia.
    + pose proof Ev as Hall. apply first_invalid_none in Hall. rewrite Hall. cbn [andb].
      destruct (analysisCount st + length (texts_of input) <=? MAX_ANALYSES) eqn:Eq.
      * apply Nat.leb_le in Eq.
        destruct (handleAnalyze_admitted (geminiService env) input st Ev Eq)
          as (_ & _ & H).
        destruct (real_analyses_fulfil env (texts_of input)) as (rs & E1 & E2).
        rewrite E1, Promise_all_values in H. destruct H as (_ & Hc & _).
        rewrite E1, filter_fulfilled, Hc.
        assert (length rs = length (texts_of input))
          by (now rewrite <- E2, length_map).
        split; lia.
      * apply Nat.leb_gt in Eq.
        rewrite (handleAnalyze_over_quota _ _ _ Ev Eq). cbn. split; lia.
  - destruct (handleCompare_counts (geminiService env) textA textB st) as [_ Hc].
    rewrite Hc. unfold completed. split; [|reflexivity].
    cbn [admitted]. destruct (analysisCount st <? MAX_ANALYSES) eqn:E; cbn [andb].
    + apply Nat.ltb_lt in E.
      destruct (_ && _); [destruct (is_fulfilled _)|]; lia.
    + lia.
Qed.

(** C2: after any sequence of analyses, batches and comparisons the counter
    is within the limit of fifteen and equals what it was at the start plus
    the number of analyses that completed: one for each analysis of an
    admitted request (single or batch item) that fulfilled, one for each
    admitted comparison that fulfilled, nothing for a rejected or failed
    request. *)
Theorem quota_invariant (calls : list (GeminiService.Env * Call)) (st : State) :
  analysisCount st <= MAX_ANALYSES ->
  analysisCount (run (session calls) st) <= MAX_ANALYSES /\
  analysisCount (run (session calls) st) = analysisCount st + completed_total calls st.
Proof.
  revert st. induction calls as [|[env c] rest IH]; intros st Hle.
  - cbn. split; lia.
  - cbn [session map run completed_total fst snd].
    destruct (handle_counts env c st Hle) as [Hle' Hc].
    destruct (IH _ Hle') as [H1 H2]. fold (session rest).
    split; [exact H1|]. rewrite H2, Hc. lia.
Qed.

Lemma quota_invariant_witness :
  analysisCount initial <= MAX_ANALYSES /\
  analysisCount (run (session Examples.a_session) initial) = 4 /\
  completed_total Examples.a_session initial = 4.
Proof.
  assert (H : analysisCount initial <= MAX_ANALYSES) by (vm_compute; lia).
  split; [exact H|].
  destruct (quota_invariant Examples.a_session initial H) as [_ E].
  split; [rewrite E|]; reflexivity.
Defined.

(** C5 (as the code has it): an admitted batch is all or nothing. If the
    analysis of one item rejects, no result of the batch is kept, the counter
    is unchanged and the status is the error of a failed analysis; if none
    rejects, the results are kept in input order and each counts. *)
Theorem batch_is_all_or_nothing (svc : Services) (input : Input) (st : State) :
  admitted (Analyze input) st = true ->
  (existsb (fun p => negb (is_fulfilled p))
     (map fst (start_all svc (texts_of input))) = true ->
   results (fst (handleAnalyze svc input st)) = results st /\
   analysisCount (fst (handleAnalyze svc input st)) = analysisCount st /\
   apiStatus (fst (handleAnalyze svc input st))
   = {| status := error; status_message := analysis_failed_message |}) /\
  (forall rs,
      map fst (start_all svc (texts_of input)) = map Fulfilled rs ->
      results (fst (handleAnalyze svc input st)) = rs ++ results st /\
      analysisCount (fst (handleAnalyze svc input st)) = analysisCount st + length rs).
Proof.
  intros Hadm. cbn [admitted] in Hadm. apply andb_true_iff in Hadm as [Hv Hq].
  apply first_invalid_none in Hv. apply Nat.leb_le in Hq.
  destruct (handleAnalyze_admitted svc input st Hv Hq) as (_ & _ & H).
  split.
  - intros Hrej. destruct (Promise_all_rejected _ Hrej) as [m Em].
    now rewrite Em in H.
  - intros rs E. rewrite E, Promise_all_values in H. now destruct H as (? & ? & _).
Qed.

Lemma batch_is_all_or_nothing_witness :
  admitted (Analyze (Batch ["good"; "boom"; "bad"])) initial = true /\
  existsb (fun p => negb (is_fulfilled p))
    (map fst (start_all (Examples.rejecting "boom" Examples.no_key)
                (texts_of (Batch ["good"; "boom"; "bad"])))) = true /\
  results (fst (handleAnalyze (Examples.rejecting "boom" Examples.no_key)
                  (Batch ["good"; "boom"; "bad"]) initial)) = [] /\
  analysisCount (fst (handleAnalyze (Examples.rejecting "boom" Examples.no_key)
                        (Batch ["good"; "boom"; "bad"]) initial)) = 0.
Proof.
  assert (Hadm : admitted (Analyze (Batch ["good"; "boom"; "bad"])) initial = true)
    by reflexivity.
  assert (Hrej : existsb (fun p => negb (is_fulfilled p))
                   (map fst (start_all (Examples.rejecting "boom" Examples.no_key)
                               (texts_of (Batch ["good"; "boom"; "bad"])))) = true)
    by reflexivity.
  split; [exact Hadm|]. split; [exact Hrej|].
  destruct (batch_is_all_or_nothing (Examples.rejecting "boom" Examples.no_key)
              (Batch ["good"; "boom"; "bad"]) initial Hadm) as [H _].
  destruct (H Hrej) as (Hr & Hc & _). split; [exact Hr | exact Hc].
Defined.

(** Against C5 as stated: in a batch of three whose second analysis rejects,
    the first and the third analysis fulfil, and yet no result is returned. *)
Lemma partial_batch_counterexample :
  is_fulfilled
    (fst (analyzeSentiment (Examples.rejecting "boom" Examples.no_key) 0 "good")) = true /\
  is_fulfilled
    (fst (analyzeSentiment (Examples.rejecting "boom" Examples.no_key) 1 "boom")) = false /\
  is_fulfilled
    (fst (analyzeSentiment (Examples.rejecting "boom" Examples.no_key) 2 "bad")) = true /\
  results (fst (handleAnalyze (Examples.rejecting "boom" Examples.no_key)
                  (Batch ["good"; "boom"; "bad"]) initial)) = [] /\
  status (apiStatus (fst (handleAnalyze (Examples.rejecting "boom" Examples.no_key)
                            (Batch ["good"; "boom"; "bad"]) initial))) = error.
Proof. repeat split. Qed.

(** C8: when the backend fails for a comparison, [compareSentiments]
    rejects with its user-facing message and [handleCompare] neither counts
    the comparison nor adds any result nor sends any sentiment request: an
    admitted comparison ends with the message as the error of the modal, and
    one that is not admitted with an error status and no request at all. *)
Theorem comparison_failure_surfaces
  (env : GeminiService.Env) (textA textB : string) (st : State) :
  backend_failure env 0
    (GeminiService.ComparisonRequest (GeminiService.escapeForPrompt textA)
       (GeminiService.escapeForPrompt textB)) = true ->
  fst (GeminiService.compareSentiments env 0 textA textB)
  = Rejected GeminiService.comparison_failed /\
  analysisCount (fst (handleCompare (geminiService env) textA textB st))
  = analysisCount st /\
  results (fst (handleCompare (geminiService env) textA textB st)) = results st /\
  existsb is_sentiment_request (snd (handleCompare (geminiService env) textA textB st))
  = false /\
  (admitted (Compare textA textB) st = true ->
   comparisonModalState (fst (handleCompare (geminiService env) textA textB st))
   = {| isOpen := true; result := VNull; modal_isLoading := false;
        modal_error := Some GeminiService.comparison_failed |} /\
   isLoading (fst (handleCompare (geminiService env) textA textB st)) = false) /\
  (admitted (Compare textA textB) st = false ->
   status (apiStatus (fst (handleCompare (geminiService env) textA textB st))) = error /\
   snd (handleCompare (geminiService env) textA textB st) = []).
Proof.
  intros Hfail.
  assert (E : GeminiService.compareSentiments env 0 textA textB
              = (Rejected GeminiService.comparison_failed,
                 if GeminiService.getAiClient env
                 then [GeminiService.ComparisonRequest
                         (GeminiService.escapeForPrompt textA)
                         (GeminiService.escapeForPrompt textB)]
                 else [])).
  { unfold backend_failure in Hfail. unfold GeminiService.compareSentiments.
    destruct (GeminiService.getAiClient env); cbn [negb orb] in Hfail; [|reflexivity].
    destruct (GeminiService.generateContent _ _ _);
      [reflexivity | reflexivity | discriminate]. }
  split; [now rewrite E|].
  unfold handleCompare. cbn [admitted]. rewrite Nat.ltb_antisym.
  destruct (MAX_ANALYSES <=? analysisCount st); cbn [negb andb];
    [cbn; repeat split; discriminate|].
  destruct (valid (isValidTextInput textA)); cbn [negb andb];
    [|cbn; repeat split; discriminate].
  destruct (valid (isValidTextInput textB)); cbn [negb andb];
    [|cbn; repeat split; discriminate].
  change (compareSentiments (geminiService env) 0 textA textB)
    with (GeminiService.compareSentiments env 0 textA textB).
  rewrite E. cbn [fst snd].
  destruct (GeminiService.getAiClient env); cbn; repeat split; discriminate.
Qed.

Lemma comparison_failure_surfaces_witness :
  backend_failure Examples.offline 0
    (GeminiService.ComparisonRequest (GeminiService.escapeForPrompt "good day")
       (GeminiService.escapeForPrompt "bad day")) = true /\
  analysisCount
    (fst (handleCompare (geminiService Examples.offline) "good day" "bad day"
            (Examples.with_count 3))) = 3 /\
  modal_error
    (comparisonModalState
       (fst (handleCompare (geminiService Examples.offline) "good day" "bad day"
               (Examples.with_count 3))))
  = Some GeminiService.comparison_failed.
Proof.
  assert (H : backend_failure Examples.offline 0
                (GeminiService.ComparisonRequest (GeminiService.escapeForPrompt "good day")
                   (GeminiService.escapeForPrompt "bad day")) = true) by reflexivity.
  split; [exact H|].
  destruct (comparison_failure_surfaces Examples.offline "good day" "bad day"
              (Examples.with_count 3) H) as (_ & Hc & _ & _ & Hm & _).
  split; [exact Hc|]. destruct (Hm eq_refl) as [-> _]. reflexivity.
Defined.

(** C9: a batch is cut to its first ten texts without a word: the handler
    does on a batch what it does on the first ten texts alone. So for a batch
    of ten texts or more (fifteen, say) whose first ten are valid and fit the
    quota, exactly the first ten are analyzed, in order: ten results, ten
    units, a success status for ten texts, and requests for those ten only. *)
Theorem batch_is_capped_at_ten
  (env : GeminiService.Env) (texts : list string) (st : State) :
  10 <= length texts ->
  first_invalid (firstn 10 texts) = None ->
  analysisCount st + 10 <= MAX_ANALYSES ->
  handleAnalyze (geminiService env) (Batch texts) st
  = handleAnalyze (geminiService env) (Batch (firstn 10 texts)) st /\
  (exists rs,
      results (fst (handleAnalyze (geminiService env) (Batch texts) st))
      = rs ++ results st /\
      map Types.text rs = firstn 10 texts /\ length rs = 10) /\
  analysisCount (fst (handleAnalyze (geminiService env) (Batch texts) st))
  = analysisCount st + 10 /\
  apiStatus (fst (handleAnalyze (geminiService env) (Batch texts) st))
  = {| status := success; status_message := "Analysis complete for 10 text(s)!" |} /\
  snd (handleAnalyze (geminiService env) (Batch texts) st)
  = (if GeminiService.getAiClient env
     then map (fun t => GeminiService.SentimentRequest (GeminiService.escapeForPrompt t))
            (firstn 10 texts)
     else []).
Proof.
  intros Hlen Hv Hq.
  assert (Hten : length (texts_of (Batch texts)) = 10).
  { cbn [texts_of]. rewrite length_firstn. lia. }
  split.
  { unfold handleAnalyze. now rewrite firstn_firstn. }
  assert (Hq' : analysisCount st + length (texts_of (Batch texts)) <= MAX_ANALYSES)
    by (rewrite Hten; exact Hq).
  destruct (handleAnalyze_admitted (geminiService env) (Batch texts) st Hv Hq')
    as (_ & _ & H).
  destruct (real_analyses_fulfil env (texts_of (Batch texts))) as (rs & E1 & E2).
  rewrite E1, Promise_all_values in H. destruct H as (Hr & Hc & Hs & Hcalls).
  assert (Hn : length rs = 10) by (now rewrite <- Hten, <- E2, length_map).
  split; [exists rs; auto|].
  split; [now rewrite Hc, Hn|].
  split.
  - rewrite Hs; [now rewrite Hn|]. intros ->. discriminate.
  - rewrite Hcalls; [|lia]. apply real_analyses_calls.
Qed.

Lemma batch_is_capped_at_ten_witness :
  10 <= length Examples.fifteen_texts /\
  first_invalid (firstn 10 Examples.fifteen_texts) = None /\
  analysisCount (Examples.with_count 5) + 10 <= MAX_ANALYSES /\
  map Types.text
    (results (fst (handleAnalyze (geminiService Examples.answers_empty_object)
                     (Batch Examples.fifteen_texts) (Examples.with_count 5))))
  = ["a"; "b"; "c"; "d"; "e"; "f"; "g"; "h"; "i"; "j"] /\
  analysisCount
    (fst (handleAnalyze (geminiService Examples.answers_empty_object)
            (Batch Examples.fifteen_texts) (Examples.with_count 5))) = 15.
Proof.
  assert (H1 : 10 <= length Examples.fifteen_texts) by (vm_compute; lia).
  assert (H2 : first_invalid (firstn 10 Examples.fifteen_texts) = None) by reflexivity.
  assert (H3 : analysisCount (Examples.with_count 5) + 10 <= MAX_ANALYSES)
    by (vm_compute; lia).
  split; [exact H1|]. split; [exact H2|]. split; [exact H3|].
  destruct (batch_is_capped_at_ten Examples.answers_empty_object Examples.fifteen_texts
              (Examples.with_count 5) H1 H2 H3) as (_ & (rs & Hr & Ht & _) & Hc & _).
  split; [|exact Hc].
  rewrite Hr, map_app, Ht. reflexivity.
Defined.

(** C4 (as the code has it): the parsed answer is not validated. A value on
    which a property can be read is accepted as it is: each field is the
    property of that name, [undefined] when absent and never clamped, and
    only a falsy [sentenceBreakdown] is replaced, by the empty array; the
    result is tagged [gemini]. Only [null] leads to the fallback. *)
Theorem payload_is_accepted_unchecked
  (env : GeminiService.Env) (slot : nat) (text : string) (v : Value) :
  GeminiService.getAiClient env = true ->
  GeminiService.generateContent env slot
    (GeminiService.SentimentRequest (GeminiService.escapeForPrompt text)) = GeminiService.Json v ->
  fst (GeminiService.analyzeSentiment env slot text)
  = Fulfilled
      (match get v "sentiment" with
       | None => GeminiService.createFallbackAnalysis (GeminiService.clock env slot) text
       | Some _ =>
           {| text := text;
              sentiment := property v "sentiment";
              confidence := property v "confidence";
              scores := property v "scores";
              keywords := property v "keywords";
              explanation := property v "explanation";
              sentenceBreakdown :=
                if truthy (property v "sentenceBreakdown")
                then property v "sentenceBreakdown" else VArr [];
              timestamp := GeminiService.clock env slot;
              apiUsed := gemini |}
       end) /\
  (get v "sentiment" = None <-> v = VNull \/ v = VUndefined).
Proof.
  intros Hkey Hres.
  unfold GeminiService.analyzeSentiment, GeminiService.analyzeSentiment_try.
  rewrite Hkey, Hres. unfold property.
  split.
  - destruct v; reflexivity.
  - destruct v; cbn [get]; split; intros H; try discriminate; auto;
      destruct H; discriminate.
Qed.

Lemma payload_is_accepted_unchecked_witness :
  GeminiService.getAiClient Examples.answers_out_of_range = true /\
  GeminiService.generateContent Examples.answers_out_of_range 0
    (GeminiService.SentimentRequest (GeminiService.escapeForPrompt "fine"))
  = GeminiService.Json
      (VObj [("sentiment", VStr "angry"); ("confidence", VNum 7%float)]) /\
  fst (GeminiService.analyzeSentiment Examples.answers_out_of_range 0 "fine")
  = Fulfilled
      {| text := "fine";
         sentiment := VStr "angry";
         confidence := VNum 7%float;
         scores := VUndefined;
         keywords := VUndefined;
         explanation := VUndefined;
         sentenceBreakdown := VArr [];
         timestamp := "2025-01-01T00:00:00.000Z";
         apiUsed := gemini |}.
Proof.
  split; [reflexivity|]. split; [reflexivity|].
  destruct (payload_is_accepted_unchecked Examples.answers_out_of_range 0 "fine" _
              eq_refl eq_refl) as [E _].
  rewrite E. reflexivity.
Defined.

(** Against C4 as stated: an answer without any required field, and an
    answer with a label outside the enumeration and a confidence of seven,
    are both returned as results of the backend, unchecked and unclamped. *)
Lemma unvalidated_payload_counterexample :
  (exists r,
      fst (GeminiService.analyzeSentiment Examples.answers_empty_object 0 "fine")
      = Fulfilled r /\
      apiUsed r = gemini /\ sentiment r = VUndefined /\ well_formed r = false) /\
  (exists r,
      fst (GeminiService.analyzeSentiment Examples.answers_out_of_range 0 "fine")
      = Fulfilled r /\
      apiUsed r = gemini /\ sentiment r = VStr "angry" /\
      confidence r = VNum 7%float /\ well_formed r = false).
Proof. split; eexists; repeat split. Qed.

End Execution.

(** ** Keyword extraction *)

Section Keywords.

Import GeminiService Facts.

Lemma own_in_keys (k : string) (o : WordCount) :
  own k o <> None <-> In k (keys o).
Proof.
  unfold keys. induction o as [|[e ve] o IH]; cbn [own map fst In].
  - tauto.
  - destruct (String.eqb_spec k e) as [->|ne].
    + split; [auto | discriminate].
    + rewrite IH. split; [auto|]. intros [E|H]; [now subst | exact H].
Qed.



Lemma keys_set_own (k : string) (v : Count) (o : WordCount) :
  keys (set_own k v o) = keys o.
Proof.
  unfold keys. induction o as [|[e ve] o IH]; cbn [set_own map fst]; [reflexivity|].
  destruct (String.eqb k e); cbn [map fst]; [reflexivity | now rewrite IH].
Qed.

Lemma own_set_own (k k' : string) (v : Count) (o : WordCount) :
  own k' (set_own k v o)
  = if String.eqb k' k
    then match own k o with Some _ => Some v | None => None end
    else own k' o.
Proof.
  induction o as [|[e ve] o IH]; cbn [set_own own].
  - now destruct (String.eqb k' k).
  - destruct (String.eqb_spec k e) as [->|ne]; cbn [own].
    + now destruct (String.eqb_spec k' e).
    + rewrite IH. destruct (String.eqb_spec k' e) as [->|ne'].
      * destruct (String.eqb_spec e k) as [E|_]; [now destruct ne | reflexivity].
      * reflexivity.
Qed.

Lemma add_key_perm (k : string) (v : Count) (o : WordCount) :
  Permutation (add_key k v o) ((k, v) :: o).
Proof.
  induction o as [|[e ve] o IH]; cbn [add_key]; [reflexivity|].
  destruct (array_index k) as [n|]; [destruct (array_index e) as [n'|]|].
  - destruct (n <? n')%N; [reflexivity|].
    rewrite IH. apply perm_swap.
  - reflexivity.
  - rewrite IH. apply perm_swap.
Qed.

Lemma own_add_key (k k' : string) (v : Count) (o : WordCount) :
  own k o = None ->
  own k' (add_key k v o) = if String.eqb k' k then Some v else own k' o.
Proof.
  induction o as [|[e ve] o IH]; cbn [add_key own]; intros Hnone.
  - reflexivity.
  - destruct (String.eqb_spec k e) as [->|ne]; [discriminate|].
    assert (Hcons : own k' ((e, ve) :: add_key k v o)
                    = if String.eqb k' k then Some v else own k' ((e, ve) :: o)).
    { cbn [own]. rewrite (IH Hnone).
      destruct (String.eqb_spec k' e) as [->|ne']; [|reflexivity].
      destruct (String.eqb_spec e k) as [E|_]; [now destruct ne | reflexivity]. }
    cbn [own] in Hcons.
    destruct (array_index k) as [n|]; [destruct (array_index e) as [n'|]|];
      try exact Hcons.
    + destruct (n <? n')%N; [reflexivity | exact Hcons].
    + reflexivity.
Qed.

Lemma occurrences_snoc (k w : string) (ws : list string) :
  occurrences k (ws ++ [w]) = occurrences k ws + (if String.eqb k w then 1 else 0).
Proof.
  unfold occurrences. rewrite count_occ_app. cbn [count_occ].
  destruct (string_dec w k) as [->|ne].
  - now rewrite String.eqb_refl.
  - destruct (String.eqb_spec k w) as [->|_]; [now destruct ne | reflexivity].
Qed.

(** One step of the counting loop keeps the object as expected. *)
Lemma bump_expected (w : string) (ws : list string) (o : WordCount) :
  (forall k, own k o = expected k ws) ->
  forall k, own k (bump w o) = expected k (ws ++ [w]).
Proof.
  intros Ho k. unfold bump.
  destruct (String.eqb_spec w "__proto__") as [->|Hproto].
  - rewrite Ho. unfold expected. rewrite occurrences_snoc.
    destruct (String.eqb_spec k "__proto__") as [->|_]; [reflexivity|].
    now rewrite Nat.add_0_r.
  - pose proof (Ho w) as Hw. unfold expected in Hw.
    destruct (String.eqb_spec w "__proto__") as [|_]; [contradiction|].
    cbn [orb] in Hw.
    assert (Hk : expected k (ws ++ [w])
                 = if String.eqb k w
                   then (if String.eqb w "constructor" then Some NotANumber
                         else Some (Times (occurrences w ws + 1)))
                   else expected k ws).
    { unfold expected. rewrite occurrences_snoc.
      destruct (String.eqb_spec k w) as [->|_].
      - destruct (String.eqb_spec w "__proto__") as [|_]; [contradiction|].
        replace (occurrences w ws + 1 =? 0) with false
          by (symmetry; apply Nat.eqb_neq; lia).
        reflexivity.
      - now rewrite Nat.add_0_r. }
    rewrite Hk. destruct (occurrences w ws =? 0) eqn:E0.
    + rewrite Hw. rewrite (own_add_key w k _ o Hw).
      apply Nat.eqb_eq in E0. rewrite E0, Ho.
      now destruct (String.eqb k w), (String.eqb w "constructor").
    + destruct (String.eqb w "constructor") eqn:Ec; rewrite Hw.
      * rewrite Ho. destruct (String.eqb_spec k w) as [->|_]; [|reflexivity].
        unfold expected. destruct (String.eqb_spec w "__proto__") as [|_]; [contradiction|].
        now rewrite E0, Ec.
      * rewrite own_set_own, Hw, Ho. reflexivity.
Qed.

Lemma fold_bump_expected (ws pre : list string) (o : WordCount) :
  (forall k, own k o = expected k pre) ->
  forall k, own k (fold_left (fun o word => bump word o) ws o) = expected k (pre ++ ws).
Proof.
  revert pre o. induction ws as [|w ws IH]; intros pre o Ho k; cbn [fold_left].
  - now rewrite app_nil_r.
  - replace (pre ++ w :: ws) with ((pre ++ [w]) ++ ws) by (now rewrite <- app_assoc).
    apply IH. now apply bump_expected.
Qed.

Lemma bump_NoDup (w : string) (o : WordCount) : NoDup (keys o) -> NoDup (keys (bump w o)).
Proof.
  intros Hnd. unfold bump. destruct (String.eqb w "__proto__"); [exact Hnd|].
  destruct (own w o) as [[n|]|] eqn:E.
  - now rewrite keys_set_own.
  - exact Hnd.
  - unfold keys. eapply Permutation_NoDup.
    + symmetry. apply Permutation_map. apply add_key_perm.
    + cbn [map fst]. constructor; [|exact Hnd].
      intros Hin. apply own_in_keys in Hin. contradiction.
Qed.

Lemma fold_bump_NoDup (ws : list string) (o : WordCount) :
  NoDup (keys o) -> NoDup (keys (fold_left (fun o word => bump word o) ws o)).
Proof.
  revert o. induction ws as [|w ws IH]; intros o Hnd; cbn [fold_left]; [exact Hnd|].
  apply IH. now apply bump_NoDup.
Qed.

(** The object built by [extractKeywords]. *)
Lemma wordCount_spec (ws : list string) :
  let o := fold_left (fun o word => bump word o) ws [] in
  NoDup (keys o) /\ forall k, own k o = expected k ws.
Proof.
  split.
  - apply fold_bump_NoDup. constructor.
  - intros k. apply (fold_bump_expected ws [] []). intros k'. unfold expected.
    cbn. now rewrite orb_true_r.
Qed.

Lemma insert_entry_perm (x : string * Count) (l : list (string * Count)) :
  Permutation (insert_entry x l) (x :: l).
Proof.
  induction l as [|y l IH]; cbn [insert_entry]; [reflexivity|].
  destruct (0 <? compare_entries x y)%Z; [|reflexivity].
  rewrite IH. apply perm_swap.
Qed.

Lemma sort_entries_perm (l : list (string * Count)) : Permutation (sort_entries l) l.
Proof.
  unfold sort_entries. induction l as [|x l IH]; cbn [fold_right]; [reflexivity|].
  rewrite insert_entry_perm. now constructor.
Qed.





Lemma chars_of_list (l : list ascii) : chars (string_of_list_ascii l) = l.
Proof. apply list_ascii_of_string_of_list_ascii. Qed.

(** The pieces of a split hold no white space, and only characters of the
    string split. *)
Lemma split_ws_aux_chars (s : string) (cur : list ascii) (sep : bool) (p : string) (c : ascii) :
  Forall (fun d => is_space_char d = false) cur ->
  In p (split_ws_aux s cur sep) -> In c (chars p) ->
  is_space_char c = false /\ (In c (chars s) \/ In c cur).
Proof.
  revert cur sep. induction s as [|d s IH]; intros cur sep Hcur Hp Hc; cbn [split_ws_aux] in Hp.
  - destruct Hp as [<-|[]]. rewrite chars_of_list in Hc. apply in_rev in Hc.
    rewrite Forall_forall in Hcur. auto.
  - unfold chars in *. cbn [list_ascii_of_string In].
    destruct (is_space_char d) eqn:Ed.
    + assert (Hrest : In p (split_ws_aux s [] true) ->
                      is_space_char c = false /\ (In c (list_ascii_of_string s) \/ In c [])).
      { intros H. apply (IH [] true); auto. }
      destruct sep.
      * destruct (Hrest Hp) as [? [?|[]]]; auto.
      * destruct Hp as [<-|Hp].
        -- rewrite chars_of_list in Hc. apply in_rev in Hc.
           rewrite Forall_forall in Hcur. auto.
        -- destruct (Hrest Hp) as [? [?|[]]]; auto.
    + destruct (IH (d :: cur) false) as [Hs [H|[H|H]]]; auto.
Qed.

Lemma replace_class_chars (cls : ascii -> bool) (r s : string) (c : ascii) :
  In c (chars (replace_class cls r s)) ->
  In c (chars r) \/ (In c (chars s) /\ cls c = false).
Proof.
  induction s as [|d s IH]; cbn [replace_class]; [intros []|].
  rewrite chars_app. intros H. apply in_app_or in H as [H|H].
  - destruct (cls d) eqn:E; [now left|].
    destruct H as [<-|[]]. right. split; [now left | exact E].
  - destruct (IH H) as [?|[? ?]]; [now left|]. right. split; [now right | assumption].
Qed.

Lemma toLowerCase_chars (s : string) (c : ascii) :
  In c (chars (toLowerCase s)) -> exists d, c = toLowerCaseChar d.
Proof.
  induction s as [|d s IH]; cbn; [intros []|].
  intros [<-|H]; [now exists d | auto].
Qed.

Lemma lower_word_char (d : ascii) :
  is_word_char (toLowerCaseChar d) = true ->
  is_lower_word_char (toLowerCaseChar d) = true.
Proof.
  destruct d as [[] [] [] [] [] [] [] []]; vm_compute; intros H; exact H || reflexivity.
Qed.

(** The words that [extractKeywords] counts. *)
Lemma words_of_spec (text k : string) :
  In k (words_of text) ->
  2 < String.length k /\ ~ In k stopWords /\ all_chars is_lower_word_char k = true.
Proof.
  unfold words_of. intros H. apply filter_In in H as [Hin Hkeep].
  unfold keep_word in Hkeep. apply andb_true_iff in Hkeep as [Hlen Hstop].
  split; [now apply Nat.ltb_lt in Hlen|]. split.
  - intros Hs. apply negb_true_iff in Hstop.
    assert (existsb (String.eqb k) stopWords = true); [|congruence].
    apply existsb_exists. exists k. split; [exact Hs | apply String.eqb_refl].
  - unfold all_chars. apply forallb_forall. intros c Hc.
    destruct (split_ws_aux_chars _ [] false k c (Forall_nil _) Hin Hc) as [Hns [Hc'|[]]].
    apply replace_class_chars in Hc' as [Hsp|[Hc' Hcls]].
    + destruct Hsp as [<-|[]]. discriminate.
    + apply toLowerCase_chars in Hc' as [d ->]. apply lower_word_char.
      apply negb_false_iff, orb_true_iff in Hcls as [?|?]; [assumption | congruence].
Qed.

Lemma NoDup_firstn {A} (n : nat) (l : list A) : NoDup l -> NoDup (firstn n l).
Proof.
  intros H. rewrite <- (firstn_skipn n l) in H. now apply NoDup_app_remove_r in H.
Qed.

Lemma in_firstn {A} (n : nat) (l : list A) (x : A) : In x (firstn n l) -> In x l.
Proof.
  intros H. rewrite <- (firstn_skipn n l). apply in_or_app. now left.
Qed.

Lemma keywords_of_object (text : string) :
  extractKeywords text
  = firstn 5 (keys (sort_entries
                      (fold_left (fun o word => bump word o) (words_of text) []))).
Proof. unfold extractKeywords, keys. now rewrite firstn_map. Qed.

Lemma expected_some (k : string) (ws : list string) :
  expected k ws <> None <-> In k ws /\ k <> "__proto__".
Proof.
  unfold expected, occurrences.
  destruct (String.eqb_spec k "__proto__") as [->|ne]; cbn [orb].
  - split; [congruence | tauto].
  - destruct (count_occ string_dec ws k =? 0) eqn:E.
    + apply Nat.eqb_eq in E. apply count_occ_not_In in E. split; [congruence | tauto].
    + apply Nat.eqb_neq in E. split; intros _.
      * split; [|exact ne]. apply (count_occ_In string_dec). lia.
      * destruct (String.eqb k "constructor"); discriminate.
Qed.

(** X1: the keywords of a text are at most five, all different, and each is
    a word of the lower-cased text that the filter kept: longer than two
    characters, no stop word, made of lower-case letters, digits and
    underscores only, and never the name [__proto__]. *)
Theorem keywords_are_kept_words (text : string) :
  length (extractKeywords text) <= 5 /\
  NoDup (extractKeywords text) /\
  forall k, In k (extractKeywords text) ->
            In k (words_of text) /\ k <> "__proto__" /\
            2 < String.length k /\ ~ In k stopWords /\
            all_chars is_lower_word_char k = true.
Proof.
  destruct (wordCount_spec (words_of text)) as [Hnd Hown].
  set (o := fold_left (fun o word => bump word o) (words_of text) []) in *.
  assert (Hperm : Permutation (keys (sort_entries o)) (keys o))
    by (apply Permutation_map, sort_entries_perm).
  rewrite keywords_of_object. fold o.
  split; [apply firstn_le_length|]. split.
  - apply NoDup_firstn. eapply Permutation_NoDup; [symmetry; exact Hperm | exact Hnd].
  - intros k Hk. apply in_firstn in Hk.
    apply (Permutation_in _ Hperm) in Hk. apply own_in_keys in Hk.
    rewrite Hown in Hk. apply expected_some in Hk as [Hin Hne].
    split; [exact Hin|]. split; [exact Hne|]. now apply (words_of_spec text).
Qed.





End Keywords.

(** ** More on the service *)

Section Service.

Import GeminiService Facts.

Lemma toLowerCaseChar_idempotent (c : ascii) :
  toLowerCaseChar (toLowerCaseChar c) = toLowerCaseChar c.
Proof. destruct c as [[] [] [] [] [] [] [] []]; reflexivity. Qed.

Lemma toLowerCase_idempotent (s : string) : toLowerCase (toLowerCase s) = toLowerCase s.
Proof.
  induction s as [|c s IH]; cbn [toLowerCase]; [reflexivity|].
  now rewrite toLowerCaseChar_idempotent, IH.
Qed.

(** X3: the fallback analysis ignores the case of letters: two texts with
    the same lower-case form, such as a text and its lower-case form, get
    the same label, confidence, scores, keywords and explanation. *)
Theorem fallback_ignores_case (ts a b : string) :
  toLowerCase a = toLowerCase b ->
  sentiment (createFallbackAnalysis ts a) = sentiment (createFallbackAnalysis ts b) /\
  confidence (createFallbackAnalysis ts a) = confidence (createFallbackAnalysis ts b) /\
  scores (createFallbackAnalysis ts a) = scores (createFallbackAnalysis ts b) /\
  keywords (createFallbackAnalysis ts a) = keywords (createFallbackAnalysis ts b) /\
  explanation (createFallbackAnalysis ts a) = explanation (createFallbackAnalysis ts b) /\
  createFallbackAnalysis ts (toLowerCase a)
  = {| text := toLowerCase a;
       sentiment := sentiment (createFallbackAnalysis ts a);
       confidence := confidence (createFallbackAnalysis ts a);
       scores := scores (createFallbackAnalysis ts a);
       keywords := keywords (createFallbackAnalysis ts a);
       explanation := explanation (createFallbackAnalysis ts a);
       sentenceBreakdown := VUndefined;
       timestamp := ts;
       apiUsed := fallback |}.
Proof.
  intros E.
  assert (Hsame : forall x y, toLowerCase x = toLowerCase y ->
                              classify x = classify y /\ extractKeywords x = extractKeywords y).
  { intros x y H. unfold classify, positiveCount, negativeCount, extractKeywords, words_of.
    now rewrite H. }
  destruct (Hsame a b E) as [Hc Hk].
  destruct (Hsame (toLowerCase a) a (toLowerCase_idempotent a)) as [Hc' Hk'].
  rewrite !createFallbackAnalysis_eq. cbv zeta.
  cbn [sentiment confidence scores keywords explanation].
  rewrite Hc', Hk', Hc, Hk. repeat split.
Qed.

Lemma fallback_ignores_case_witness :
  toLowerCase "I LOVE this Great Day" = toLowerCase "i love THIS great day" /\
  sentiment (createFallbackAnalysis "now" "I LOVE this Great Day")
  = sentiment (createFallbackAnalysis "now" "i love THIS great day") /\
  keywords (createFallbackAnalysis "now" "I LOVE this Great Day")
  = keywords (createFallbackAnalysis "now" "i love THIS great day").
Proof.
  assert (H : toLowerCase "I LOVE this Great Day" = toLowerCase "i love THIS great day")
    by reflexivity.
  split; [exact H|].
  destruct (fallback_ignores_case "now" _ _ H) as (Hs & _ & _ & Hk & _).
  split; [exact Hs | exact Hk].
Defined.

Lemma winning_confidence_bounds (k : nat) :
  1 <= k <= 10 ->
  PrimFloat.leb 0.75%float (confidence_of k) = true /\
  PrimFloat.leb (confidence_of k) 0.95%float = true /\
  PrimFloat.leb 0.025%float (rest_share (confidence_of k)) = true /\
  PrimFloat.leb (rest_share (confidence_of k)) 0.125%float = true.
Proof.
  intros [Hlo Hhi]. destruct k as [|k]; [lia|].
  do 10 (destruct k as [|k]; [vm_compute; repeat split; reflexivity|]). lia.
Qed.

(** X4: the confidence of the fallback analysis lies between 0.75 and 0.95,
    and the score of a label that did not win between 0.025 and 0.125. *)
Theorem fallback_confidence_bounds (ts text : string) :
  exists label c,
    sentiment (createFallbackAnalysis ts text) = VStr (Sentiment_value label) /\
    confidence (createFallbackAnalysis ts text) = VNum c /\
    PrimFloat.leb 0.75%float c = true /\ PrimFloat.leb c 0.95%float = true /\
    forall other x,
      other <> label ->
      number_at (scores (createFallbackAnalysis ts text)) (Sentiment_value other) = Some x ->
      PrimFloat.leb 0.025%float x = true /\ PrimFloat.leb x 0.125%float = true.
Proof.
  rewrite createFallbackAnalysis_eq. cbv zeta. cbn [sentiment confidence scores].
  exists (fst (classify text)), (snd (classify text)).
  split; [reflexivity|]. split; [reflexivity|].
  assert (H : PrimFloat.leb 0.75%float (snd (classify text)) = true /\
              PrimFloat.leb (snd (classify text)) 0.95%float = true /\
              PrimFloat.leb 0.025%float (rest_share (snd (classify text))) = true /\
              PrimFloat.leb (rest_share (snd (classify text))) 0.125%float = true).
  { pose proof (positiveCount_le text). pose proof (negativeCount_le text).
    destruct (classify_cases text) as [[Hlt ->]|[[Hlt ->]|[_ ->]]]; cbn [snd].
    - apply winning_confidence_bounds. lia.
    - apply winning_confidence_bounds. lia.
    - vm_compute. repeat split; reflexivity. }
  destruct H as (H1 & H2 & H3 & H4).
  split; [exact H1|]. split; [exact H2|].
  intros other x Hne Hx. rewrite number_at_scores in Hx. injection Hx as <-.
  unfold score_for. fold (rest_share (snd (classify text))).
  destruct (fst (classify text)), other; cbn [Sentiment_eqb];
    try (now destruct Hne); auto.
Qed.

Lemma escape_unfold (c : ascii) (s : string) :
  escapeForPrompt (String c s)
  = if Ascii.eqb dquote c
    then String "\"%char (String dquote (escapeForPrompt s))
    else String c (escapeForPrompt s).
Proof. unfold escapeForPrompt. cbn [replace_class]. now destruct (Ascii.eqb dquote c). Qed.

Lemma quotes_cons (c : ascii) (s : string) :
  quotes (String c s) = (if Ascii.eqb dquote c then 1 else 0) + quotes s.
Proof. unfold quotes, chars. cbn [list_ascii_of_string filter]. now destruct (Ascii.eqb dquote c). Qed.

Lemma quotes_escaped_escape (prev : bool) (s : string) :
  quotes_escaped prev (escapeForPrompt s) = true.
Proof.
  revert prev. induction s as [|c s IH]; intros prev; [reflexivity|].
  rewrite escape_unfold. destruct (Ascii.eqb_spec dquote c) as [<-|ne].
  - cbn [quotes_escaped]. rewrite IH. reflexivity.
  - cbn [quotes_escaped]. rewrite IH.
    destruct (Ascii.eqb_spec c dquote) as [->|_]; [now destruct ne | reflexivity].
Qed.

Lemma valid_has_no_quote (t : string) :
  App.valid (App.isValidTextInput t) = true -> quotes t = 0.
Proof.
  unfold App.isValidTextInput.
  destruct (test_class is_ascii_letter t); cbn [negb App.valid]; [|discriminate].
  destruct (test_class App.is_forbidden_punctuation t) eqn:E; cbn [App.valid]; [discriminate|].
  intros _. induction t as [|c t IH]; [reflexivity|].
  cbn [test_class] in E. apply orb_false_iff in E as [Ec Et].
  rewrite quotes_cons, (IH Et).
  unfold App.is_forbidden_punctuation in Ec.
  apply orb_false_iff in Ec as [_ Ec].
  destruct (Ascii.eqb_spec dquote c) as [<-|_]; [|reflexivity].
  now rewrite Ascii.eqb_refl in Ec.
Qed.

Lemma escape_without_quote (s : string) : quotes s = 0 -> escapeForPrompt s = s.
Proof.
  induction s as [|c s IH]; [reflexivity|].
  rewrite quotes_cons, escape_unfold.
  destruct (Ascii.eqb dquote c); [discriminate|]. intros H. now rewrite IH.
Qed.

Lemma escape_valid (t : string) :
  App.valid (App.isValidTextInput t) = true -> escapeForPrompt t = t.
Proof. intros H. now apply escape_without_quote, valid_has_no_quote. Qed.

(** X5: in an escaped text every double quote stands after a backslash;
    the text grows by one character for each double quote; a text without
    double quote is unchanged, and so is every text that passes the input
    validation. *)
Theorem escapeForPrompt_escapes_quotes (t : string) :
  quotes_escaped false (escapeForPrompt t) = true /\
  String.length (escapeForPrompt t) = String.length t + quotes t /\
  (quotes t = 0 -> escapeForPrompt t = t) /\
  (App.valid (App.isValidTextInput t) = true -> escapeForPrompt t = t).
Proof.
  pose proof escape_without_quote as Hid.
  split; [apply quotes_escaped_escape|]. split; [|split].
  - induction t as [|c t IH]; [reflexivity|].
    rewrite quotes_cons, escape_unfold.
    destruct (Ascii.eqb dquote c); cbn [String.length]; rewrite IH; lia.
  - apply Hid.
  - intros Hv. apply Hid. now apply valid_has_no_quote.
Qed.

(** X6: [getMoodEnhancers] never rejects and sends at most one request,
    which carries the first five hundred characters of the text, escaped.
    When the backend fails the result is the fixed record chosen by the
    label alone; otherwise it is the parsed answer as it came. *)
Theorem getMoodEnhancers_is_best_effort
  (env : Env) (slot : nat) (label : Value) (text : string) :
  let request := MoodRequest label (escapeForPrompt (substring0 500 text)) in
  (exists m, fst (getMoodEnhancers env slot label text) = Fulfilled m) /\
  snd (getMoodEnhancers env slot label text)
  = (if getAiClient env then [request] else []) /\
  String.length (substring0 500 text) <= 500 /\
  String.prefix (substring0 500 text) text = true /\
  (backend_failure env slot request = true ->
   fst (getMoodEnhancers env slot label text)
   = Fulfilled
       (if Value_is_string label "negative" then MoodForNegative
        else if Value_is_string label "positive" then MoodForPositive
        else MoodForOther)) /\
  (forall v,
      getAiClient env = true -> generateContent env slot request = Json v ->
      fst (getMoodEnhancers env slot label text) = Fulfilled (MoodFromBackend v)).
Proof.
  intros request. unfold getMoodEnhancers, backend_failure. fold request.
  assert (Hlen : forall n s, String.length (substring0 n s) <= n).
  { induction n as [|n IH]; intros [|c s]; cbn; try lia. specialize (IH s). lia. }
  assert (Hpre : forall n s, String.prefix (substring0 n s) s = true).
  { induction n as [|n IH]; intros [|c s]; cbn; try reflexivity.
    destruct (ascii_dec c c) as [_|ne]; [apply IH | now destruct ne]. }
  split; [destruct (getAiClient env); [destruct (generateContent env slot request)|];
          cbn [fst]; eauto|].
  split; [destruct (getAiClient env); [destruct (generateContent env slot request)|];
          reflexivity|].
  split; [apply Hlen|]. split; [apply Hpre|]. split.
  - destruct (getAiClient env); cbn [negb orb]; [|reflexivity].
    destruct (generateContent env slot request); [reflexivity | reflexivity | discriminate].
  - intros v Hkey Hres. now rewrite Hkey, Hres.
Qed.

Lemma getMoodEnhancers_is_best_effort_witness :
  backend_failure Examples.offline 1
    (MoodRequest (VStr "negative") (escapeForPrompt (substring0 500 "bad day"))) = true /\
  fst (getMoodEnhancers Examples.offline 1 (VStr "negative") "bad day")
  = Fulfilled MoodForNegative.
Proof.
  assert (H : backend_failure Examples.offline 1
                (MoodRequest (VStr "negative") (escapeForPrompt (substring0 500 "bad day")))
              = true) by reflexivity.
  split; [exact H|].
  destruct (getMoodEnhancers_is_best_effort Examples.offline 1 (VStr "negative") "bad day")
    as (_ & _ & _ & _ & Hf & _).
  exact (Hf H).
Defined.

(** X7: an answer of the backend that follows the response schema is
    returned field by field, as a structurally valid result for the text,
    tagged [gemini]. *)
Theorem conforming_answer_is_returned (env : Env) (slot : nat) (text : string) (v : Value) :
  getAiClient env = true ->
  generateContent env slot (SentimentRequest (escapeForPrompt text)) = Json v ->
  conforms v = true ->
  exists r,
    fst (analyzeSentiment env slot text) = Fulfilled r /\
    well_formed r = true /\ apiUsed r = gemini /\ Types.text r = text /\
    sentiment r = property v "sentiment" /\
    confidence r = property v "confidence" /\
    scores r = property v "scores" /\
    keywords r = property v "keywords" /\
    explanation r = property v "explanation" /\
    sentenceBreakdown r = property v "sentenceBreakdown" /\
    snd (analyzeSentiment env slot text) = [SentimentRequest (escapeForPrompt text)].
Proof.
  intros Hkey Hres Hconf.
  unfold analyzeSentiment, analyzeSentiment_try. rewrite Hkey, Hres.
  unfold conforms in Hconf.
  destruct v as [| | | | | |props]; try discriminate Hconf.
  unfold property in *. cbn [get] in *.
  repeat (apply andb_true_iff in Hconf as [Hconf ?]).
  destruct (lookup "sentenceBreakdown" props) as [| | | | |items|] eqn:Eb; try discriminate.
  cbn [truthy fst snd]. eexists. split; [reflexivity|].
  unfold well_formed.
  cbn [sentiment confidence scores keywords explanation sentenceBreakdown apiUsed Types.text
       is_breakdown].
  repeat split.
  repeat (apply andb_true_iff; split); assumption.
Qed.

Lemma conforming_answer_is_returned_witness :
  getAiClient MoreExamples.answers_conforming = true /\
  generateContent MoreExamples.answers_conforming 0
    (SentimentRequest (escapeForPrompt "What a day")) = Json MoreExamples.conforming_answer /\
  conforms MoreExamples.conforming_answer = true /\
  exists r,
    fst (analyzeSentiment MoreExamples.answers_conforming 0 "What a day") = Fulfilled r /\
    well_formed r = true /\ apiUsed r = gemini /\ sentiment r = VStr "positive".
Proof.
  split; [reflexivity|]. split; [reflexivity|]. split; [reflexivity|].
  destruct (conforming_answer_is_returned MoreExamples.answers_conforming 0 "What a day"
              MoreExamples.conforming_answer eq_refl eq_refl eq_refl)
    as (r & Hr & Hw & Ha & _ & Hs & _).
  exists r. repeat split; assumption.
Defined.

End Service.

(** ** More on the handlers *)

Section Handlers.

Import App Facts.

Lemma start_all_length (svc : Services) (texts : list string) :
  length (start_all svc texts) = length texts.
Proof.
  unfold start_all. rewrite length_map, length_combine, length_seq. lia.
Qed.

(** One call, whatever the service does. *)
Lemma handle_keeps (svc : Services) (c : Call) (st : State) :
  analysisCount st <= MAX_ANALYSES ->
  analysisCount (fst (handle svc c st)) <= MAX_ANALYSES /\
  analysisCount st <= analysisCount (fst (handle svc c st)) /\
  (exists new, results (fst (handle svc c st)) = new ++ results st) /\
  (isLoading st = false -> isLoading (fst (handle svc c st)) = false).
Proof.
  intros Hle. destruct c as [input|textA textB]; cbn [handle].
  - destruct (first_invalid (texts_of input)) as [t|] eqn:Ev.
    + rewrite (handleAnalyze_invalid _ _ _ _ Ev). cbn. repeat split; auto.
      now exists [].
    + destruct (Nat.le_gt_cases (analysisCount st + length (texts_of input)) MAX_ANALYSES)
        as [Hq|Hq].
      * destruct (handleAnalyze_admitted svc input st Ev Hq) as (_ & Hload & H).
        destruct (Promise_all _) as [rs|m] eqn:Ep.
        -- destruct H as (Hr & Hc & _).
           apply Promise_all_fulfilled in Ep.
           assert (length rs = length (texts_of input)).
           { rewrite <- (start_all_length svc), <- (length_map fst), Ep.
             now rewrite length_map. }
           rewrite Hc, Hr. repeat split; try lia; eauto.
        -- destruct H as (Hr & Hc & _). rewrite Hc, Hr.
           repeat split; try lia; auto. now exists [].
      * rewrite (handleAnalyze_over_quota _ _ _ Ev Hq). cbn. repeat split; auto.
        now exists [].
  - destruct (handleCompare_counts svc textA textB st) as [Hr Hc].
    rewrite Hr, Hc. split; [|split; [lia|split; [now exists []|]]].
    + cbn [admitted]. destruct (analysisCount st <? MAX_ANALYSES) eqn:E; cbn [andb].
      * apply Nat.ltb_lt in E. destruct (_ && _); [destruct (is_fulfilled _)|]; lia.
      * lia.
    + intros Hl. unfold handleCompare.
      destruct (MAX_ANALYSES <=? analysisCount st); [exact Hl|].
      destruct (valid (isValidTextInput textA)); cbn [negb]; [|exact Hl].
      destruct (valid (isValidTextInput textB)); cbn [negb]; [|exact Hl].
      now destruct (compareSentiments svc 0 textA textB) as [[r|m] calls].
Qed.

(** X8: whatever the services do (reject, or return anything), a session of
    calls keeps the counter within the limit, never lowers it, never drops
    or reorders a result of the history, and leaves the application not
    loading. *)
Theorem session_keeps_history_and_limit (calls : list (Services * Call)) (st : State) :
  analysisCount st <= MAX_ANALYSES ->
  analysisCount (run calls st) <= MAX_ANALYSES /\
  analysisCount st <= analysisCount (run calls st) /\
  (exists new, results (run calls st) = new ++ results st) /\
  (isLoading st = false -> isLoading (run calls st) = false).
Proof.
  revert st. induction calls as [|[svc c] rest IH]; intros st Hle; cbn [run].
  - repeat split; auto. now exists [].
  - destruct (handle_keeps svc c st Hle) as (H1 & H2 & [new1 H3] & H4).
    destruct (IH _ H1) as (I1 & I2 & [new2 I3] & I4).
    split; [exact I1|]. split; [lia|]. split; [|auto].
    exists (new2 ++ new1). now rewrite I3, H3, app_assoc.
Qed.

Lemma session_keeps_history_and_limit_witness :
  analysisCount (Examples.with_count 14) <= MAX_ANALYSES /\
  analysisCount
    (run [(Examples.rejecting "boom" Examples.no_key, Analyze (Batch ["boom"]));
          (geminiService Examples.answers_empty_object, Compare "good" "bad");
          (geminiService Examples.answers_empty_object, Compare "good" "bad")]
       (Examples.with_count 14)) <= MAX_ANALYSES.
Proof.
  assert (H : analysisCount (Examples.with_count 14) <= MAX_ANALYSES) by (vm_compute; lia).
  split; [exact H|].
  exact (proj1 (session_keeps_history_and_limit _ _ H)).
Defined.

(** X9: an empty batch is admitted, sends nothing and counts nothing, and
    yet ends with the error status of a failed analysis. *)
Theorem empty_batch_fails (svc : Services) (st : State) :
  analysisCount st <= MAX_ANALYSES ->
  snd (handleAnalyze svc (Batch []) st) = [] /\
  results (fst (handleAnalyze svc (Batch []) st)) = results st /\
  analysisCount (fst (handleAnalyze svc (Batch []) st)) = analysisCount st /\
  apiStatus (fst (handleAnalyze svc (Batch []) st))
  = {| status := error; status_message := analysis_failed_message |} /\
  isLoading (fst (handleAnalyze svc (Batch []) st)) = false.
Proof.
  intros Hle. unfold handleAnalyze. cbn [firstn find length].
  rewrite Nat.add_0_r.
  assert (E : (MAX_ANALYSES <? analysisCount st) = false) by (now apply Nat.ltb_ge).
  rewrite E. cbn. repeat split. lia.
Qed.

Lemma empty_batch_fails_witness :
  analysisCount initial <= MAX_ANALYSES /\
  status (apiStatus (fst (handleAnalyze (geminiService Examples.offline) (Batch []) initial)))
  = error.
Proof.
  assert (H : analysisCount initial <= MAX_ANALYSES) by (vm_compute; lia).
  split; [exact H|].
  destruct (empty_batch_fails (geminiService Examples.offline) initial H)
    as (_ & _ & _ & Hs & _).
  now rewrite Hs.
Defined.

(** X10: an admitted comparison that the backend answers with any JSON
    value, [null] included, is counted as one analysis: the modal holds the
    value without error, the history is unchanged, and the one request sent
    carries the two texts as they are. *)
Theorem answered_comparison_counts
  (env : GeminiService.Env) (textA textB : string) (st : State) (v : Value) :
  admitted (Compare textA textB) st = true ->
  GeminiService.getAiClient env = true ->
  GeminiService.generateContent env 0 (GeminiService.ComparisonRequest textA textB)
  = GeminiService.Json v ->
  handleCompare (geminiService env) textA textB st
  = (setIsLoading false
       (setAnalysisCount (fun prev => prev + 1)
          (setComparisonModalState
             {| isOpen := true; result := v; modal_isLoading := false;
                modal_error := None |}
             (setComparisonModalState
                {| isOpen := true; result := VNull; modal_isLoading := true;
                   modal_error := None |}
                (setIsLoading true st)))),
     [GeminiService.ComparisonRequest textA textB]) /\
  analysisCount (fst (handleCompare (geminiService env) textA textB st))
  = analysisCount st + 1 /\
  results (fst (handleCompare (geminiService env) textA textB st)) = results st.
Proof.
  intros Hadm Hkey Hres. cbn [admitted] in Hadm.
  apply andb_true_iff in Hadm as [Hadm HB]. apply andb_true_iff in Hadm as [Hq HA].
  assert (E : handleCompare (geminiService env) textA textB st
              = (setIsLoading false
                   (setAnalysisCount (fun prev => prev + 1)
                      (setComparisonModalState
                         {| isOpen := true; result := v; modal_isLoading := false;
                            modal_error := None |}
                         (setComparisonModalState
                            {| isOpen := true; result := VNull; modal_isLoading := true;
                               modal_error := None |}
                            (setIsLoading true st)))),
                 [GeminiService.ComparisonRequest textA textB])).
  { unfold handleCompare. rewrite Nat.ltb_antisym in Hq. apply negb_true_iff in Hq.
    rewrite Hq, HA, HB. cbn [negb].
    change (compareSentiments (geminiService env) 0 textA textB)
      with (GeminiService.compareSentiments env 0 textA textB).
    unfold GeminiService.compareSentiments.
    rewrite Hkey, (escape_valid _ HA), (escape_valid _ HB), Hres. reflexivity. }
  rewrite E. cbn. repeat split.
Qed.

Lemma answered_comparison_counts_witness :
  admitted (Compare "good day" "bad day") (Examples.with_count 14) = true /\
  GeminiService.getAiClient MoreExamples.answers_null = true /\
  GeminiService.generateContent MoreExamples.answers_null 0
    (GeminiService.ComparisonRequest "good day" "bad day") = GeminiService.Json VNull /\
  analysisCount
    (fst (handleCompare (geminiService MoreExamples.answers_null) "good day" "bad day"
            (Examples.with_count 14))) = 15.
Proof.
  split; [reflexivity|]. split; [reflexivity|]. split; [reflexivity|].
  destruct (answered_comparison_counts MoreExamples.answers_null "good day" "bad day"
              (Examples.with_count 14) VNull eq_refl eq_refl eq_refl) as (_ & Hc & _).
  exact Hc.
Defined.

End Handlers.

(** ** Mood enhancement within an analysis *)

Section Mood.

Import App Facts.

Lemma start_all_same (svc svc' : Services) (texts : list string) :
  (forall slot t, analyzeSentiment svc slot t = analyzeSentiment svc' slot t) ->
  start_all svc texts = start_all svc' texts.
Proof.
  intros H. unfold start_all. apply map_ext. intros [slot t]. apply H.
Qed.

(** X11: the mood enhancement cannot change the outcome of an analysis:
    two services that analyze alike lead to states that differ at most in
    the mood shown, however their mood enhancers behave. *)
Theorem mood_is_best_effort (svc svc' : Services) (input : Input) (st : State) :
  (forall slot t, analyzeSentiment svc slot t = analyzeSentiment svc' slot t) ->
  setMoodEnhancers None (fst (handleAnalyze svc input st))
  = setMoodEnhancers None (fst (handleAnalyze svc' input st)).
Proof.
  intros H. unfold handleAnalyze.
  destruct (find _ _); [reflexivity|].
  destruct (MAX_ANALYSES <? _); [reflexivity|].
  rewrite (start_all_same svc svc' _ H).
  destruct (Promise_all _) as [[|first rest]|m]; [reflexivity | | reflexivity].
  destruct (length (first :: rest) =? 1); [|reflexivity].
  destruct (getMoodEnhancers svc _ _ _) as [[e|m] more],
           (getMoodEnhancers svc' _ _ _) as [[e'|m'] more']; reflexivity.
Qed.

Lemma mood_is_best_effort_witness :
  (forall slot t,
      analyzeSentiment (geminiService Examples.offline) slot t
      = analyzeSentiment (MoreExamples.without_mood Examples.offline) slot t) /\
  results (fst (handleAnalyze (MoreExamples.without_mood Examples.offline)
                  (Single "good day") initial))
  = results (fst (handleAnalyze (geminiService Examples.offline)
                    (Single "good day") initial)) /\
  moodEnhancers (fst (handleAnalyze (MoreExamples.without_mood Examples.offline)
                        (Single "good day") initial)) = None /\
  moodEnhancers (fst (handleAnalyze (geminiService Examples.offline)
                        (Single "good day") initial)) = Some MoodForPositive.
Proof.
  assert (H : forall slot t,
             analyzeSentiment (geminiService Examples.offline) slot t
             = analyzeSentiment (MoreExamples.without_mood Examples.offline) slot t)
    by reflexivity.
  split; [exact H|].
  pose proof (mood_is_best_effort _ _ (Single "good day") initial H) as E.
  split; [|split; reflexivity].
  apply (f_equal results) in E. symmetry. exact E.
Defined.




End Mood.

(** ** The deeper analysis *)

Section Deeper.

Import Advanced.

(** X13: the deeper analysis has no fallback. Without API key nothing is
    sent; when the key is missing, the call rejects or the answer is not
    JSON, the modal ends open on the selected result with the fixed error
    message and no data; a parsed answer is shown as it came. If the modal
    was closed while the analysis ran, the outcome is still written into the
    closed modal. *)
Theorem deeper_analysis_has_no_fallback
  (env : GeminiService.Env) (respond : string -> GeminiService.Response)
  (result : SentimentAnalysisResult) :
  let perform := performAdvancedAnalysis env respond in
  let escaped := GeminiService.escapeForPrompt (Types.text result) in
  let failure :=
    negb (GeminiService.getAiClient env) ||
    match respond escaped with
    | GeminiService.Json _ => false
    | _ => true
    end in
  snd (handleDeeperAnalysis perform (fun s => s) result)
  = (if GeminiService.getAiClient env then [escaped] else []) /\
  (failure = true ->
   fst (handleDeeperAnalysis perform (fun s => s) result)
   = {| isOpen := true; selectedResult := Some result; advancedData := VNull;
        isLoading := false; error := Some deeper_failed_message |} /\
   fst (handleDeeperAnalysis perform (fun _ => closed) result)
   = {| isOpen := false; selectedResult := None; advancedData := VNull;
        isLoading := false; error := Some deeper_failed_message |}) /\
  (forall v,
      GeminiService.getAiClient env = true -> respond escaped = GeminiService.Json v ->
      fst (handleDeeperAnalysis perform (fun s => s) result)
      = {| isOpen := true; selectedResult := Some result; advancedData := v;
           isLoading := false; error := None |} /\
      fst (handleDeeperAnalysis perform (fun _ => closed) result)
      = {| isOpen := false; selectedResult := None; advancedData := v;
           isLoading := false; error := None |}).
Proof.
  intros perform escaped failure. subst perform failure.
  unfold handleDeeperAnalysis, performAdvancedAnalysis. fold escaped.
  destruct (GeminiService.getAiClient env); cbn [negb orb].
  - destruct (respond escaped) as [| |v]; cbn [fst snd].
    + split; [reflexivity|]. split; [intros _; split; reflexivity|].
      intros v _ E. discriminate.
    + split; [reflexivity|]. split; [intros _; split; reflexivity|].
      intros v _ E. discriminate.
    + split; [reflexivity|]. split; [discriminate|].
      intros v' _ E. injection E as <-. split; reflexivity.
  - cbn [fst snd]. split; [reflexivity|]. split; [intros _; split; reflexivity|].
    intros v E. discriminate.
Qed.

Lemma deeper_analysis_has_no_fallback_witness :
  negb (GeminiService.getAiClient Examples.no_key) ||
  match (fun _ : string => GeminiService.Json (VObj []))
          (GeminiService.escapeForPrompt (Types.text MoreExamples.a_result)) with
  | GeminiService.Json _ => false
  | _ => true
  end = true /\
  error (fst (handleDeeperAnalysis
                (performAdvancedAnalysis Examples.no_key
                   (fun _ => GeminiService.Json (VObj [])))
                (fun s => s) MoreExamples.a_result))
  = Some deeper_failed_message /\
  snd (handleDeeperAnalysis
         (performAdvancedAnalysis Examples.no_key (fun _ => GeminiService.Json (VObj [])))
         (fun s => s) MoreExamples.a_result) = [].
Proof.
  split; [reflexivity|].
  destruct (deeper_analysis_has_no_fallback Examples.no_key
              (fun _ => GeminiService.Json (VObj [])) MoreExamples.a_result)
    as (Hcalls & Hfail & _).
  split; [|exact Hcalls].
  destruct (Hfail eq_refl) as [-> _]. reflexivity.
Defined.

End Deeper.

(** ** The input panel *)

Section Panel.

Import InputSection.

Lemma trimStart_chars (s : string) (c : ascii) :
  In c (chars (trimStart s)) -> In c (chars s).
Proof.
  unfold chars. induction s as [|d s IH]; cbn [trimStart]; [auto|].
  destruct (is_space_char d); [|auto]. intros H. right. auto.
Qed.

Lemma trimEnd_chars (s : string) (c : ascii) :
  In c (chars (trimEnd s)) -> In c (chars s).
Proof.
  unfold chars. induction s as [|d s IH]; cbn [trimEnd]; [auto|].
  destruct (trimEnd s) as [|e r] eqn:E.
  - destruct (is_space_char d); [intros [] | intros [<-|[]]; now left].
  - cbn [list_ascii_of_string In] in *. intros [<-|H]; [now left | right; auto].
Qed.

Lemma trimStart_keeps (s : string) (c : ascii) :
  In c (chars s) -> is_space_char c = false -> In c (chars (trimStart s)).
Proof.
  unfold chars. induction s as [|d s IH]; cbn [trimStart]; [auto|].
  intros Hin Hc. destruct (is_space_char d) eqn:Ed; [|exact Hin].
  destruct Hin as [<-|Hin]; [congruence | auto].
Qed.

Lemma trimEnd_keeps (s : string) (c : ascii) :
  In c (chars s) -> is_space_char c = false -> In c (chars (trimEnd s)).
Proof.
  unfold chars. induction s as [|d s IH]; cbn [trimEnd]; [auto|].
  intros Hin Hc. cbn [list_ascii_of_string In] in Hin.
  destruct (trimEnd s) as [|e r] eqn:E.
  - destruct Hin as [Hd|Hin].
    + subst d. rewrite Hc. now left.
    + destruct (IH Hin Hc).
  - destruct Hin as [Hd|Hin].
    + subst d. now left.
    + right. now apply IH.
Qed.

Lemma trimEnd_idempotent (s : string) : trimEnd (trimEnd s) = trimEnd s.
Proof.
  induction s as [|d s IH]; cbn [trimEnd]; [reflexivity|].
  destruct (trimEnd s) as [|e r] eqn:E.
  - destruct (is_space_char d) eqn:Ed; [reflexivity|]. cbn [trimEnd]. now rewrite Ed.
  - cbn [trimEnd]. cbn [trimEnd] in IH. rewrite IH. reflexivity.
Qed.

Lemma trimStart_idempotent (s : string) : trimStart (trimStart s) = trimStart s.
Proof.
  induction s as [|d s IH]; cbn [trimStart]; [reflexivity|].
  destruct (is_space_char d) eqn:Ed; [exact IH|]. cbn [trimStart]. now rewrite Ed.
Qed.

Lemma trimEnd_of_trimStart (s : string) :
  trimEnd s = s -> trimEnd (trimStart s) = trimStart s.
Proof.
  induction s as [|d s IH]; cbn [trimStart]; [auto|].
  intros H. destruct (is_space_char d) eqn:Ed; [|exact H].
  apply IH. cbn [trimEnd] in H. destruct (trimEnd s) as [|e r].
  - rewrite Ed in H. discriminate.
  - now injection H.
Qed.

Lemma trim_idempotent (s : string) : trim (trim s) = trim s.
Proof.
  unfold trim.
  rewrite (trimEnd_of_trimStart (trimEnd s) (trimEnd_idempotent s)).
  apply trimStart_idempotent.
Qed.

(** A string that has a character other than white space does not trim to
    the empty string, and conversely. *)
Lemma trim_nonempty (s : string) :
  nonempty (trim s) = true <-> exists c, In c (chars s) /\ is_space_char c = false.
Proof.
  unfold nonempty, trim. split.
  - intros H. destruct (trimStart (trimEnd s)) as [|c r] eqn:E; [discriminate|].
    exists c. split.
    + apply trimEnd_chars, trimStart_chars. rewrite E. now left.
    + clear H. revert E. generalize (trimEnd s) as y.
      induction y as [|d y IH]; cbn [trimStart]; [discriminate|].
      destruct (is_space_char d) eqn:Ed; [exact IH|]. intros E. now injection E as <- _.
  - intros (c & Hin & Hc).
    pose proof (trimStart_keeps _ c (trimEnd_keeps _ c Hin Hc) Hc) as H.
    destruct (trimStart (trimEnd s)); [destruct H | reflexivity].
Qed.

(** The lines of a split hold no line feed, and every other character of
    the string is in one of them. *)
Lemma split_lines_aux_lines (s : string) (cur : list ascii) :
  ~ In newline cur ->
  (forall line, In line (split_lines_aux s cur) -> ~ In newline (chars line)) /\
  (forall c, c <> newline -> In c (chars s) \/ In c cur ->
             exists line, In line (split_lines_aux s cur) /\ In c (chars line)).
Proof.
  revert cur. induction s as [|d s IH]; intros cur Hcur; cbn [split_lines_aux].
  - split.
    + intros line [<-|[]]. rewrite chars_of_list. now rewrite <- in_rev.
    + intros c _ [[]|Hc]. eexists. split; [now left|].
      rewrite chars_of_list. now apply in_rev in Hc.
  - destruct (Ascii.eqb_spec d newline) as [->|ne].
    + destruct (IH [] (fun H => H)) as [I1 I2]. split.
      * intros line [<-|H]; [rewrite chars_of_list; now rewrite <- in_rev | auto].
      * intros c Hc [[E|H]|H].
        -- now destruct Hc.
        -- destruct (I2 c Hc (or_introl H)) as (line & ? & ?). exists line. split; [now right | assumption].
        -- eexists. split; [now left|]. rewrite chars_of_list. now apply in_rev in H.
    + assert (Hcur' : ~ In newline (d :: cur)) by (intros [E|H]; [now destruct ne | auto]).
      destruct (IH (d :: cur) Hcur') as [I1 I2]. split; [exact I1|].
      intros c Hc [[E|H]|H]; apply (I2 c Hc).
      * right. now left.
      * now left.
      * right. now right.
Qed.

(** X14: when a click on the batch tab calls the handler, the application
    is not loading and below the limit, and the batch is not empty: its
    texts are the lines of the field, trimmed, without the blank ones, so
    that each is a trimmed, non-empty text of one line. *)
Theorem batch_click_sends_trimmed_lines
  (loading : bool) (count limit : nat) (inputs : Inputs) (texts : list string) :
  handleAnalyzeClick loading count limit inputs = OnAnalyze (App.Batch texts) ->
  loading = false /\ count < limit /\
  texts = filter nonempty (map trim (split_lines (batchInput inputs))) /\
  texts <> [] /\
  forall t, In t texts ->
            t <> "" /\ trim t = t /\ ~ In newline (chars t) /\
            exists line, In line (split_lines (batchInput inputs)) /\ t = trim line.
Proof.
  unfold handleAnalyzeClick. intros H.
  destruct loading; [discriminate|]. cbn [orb] in H.
  destruct (limit <=? count) eqn:El; [discriminate|]. apply Nat.leb_gt in El.
  destruct (activeTab inputs);
    try (destruct (nonempty (trim (textInput inputs))); discriminate);
    try (destruct (_ && _); discriminate).
  destruct (nonempty (trim (batchInput inputs))) eqn:En; [|discriminate].
  injection H as <-.
  destruct (split_lines_aux_lines (batchInput inputs) [] (fun H => H)) as [Hno Hall].
  fold (split_lines (batchInput inputs)) in Hno, Hall.
  split; [reflexivity|]. split; [exact El|]. split; [reflexivity|]. split.
  - apply trim_nonempty in En as (c & Hin & Hc).
    assert (Hnl : c <> newline) by (intros ->; discriminate).
    destruct (Hall c Hnl (or_introl Hin)) as (line & Hline & Hcl).
    assert (Hk : In (trim line) (filter nonempty (map trim (split_lines (batchInput inputs))))).
    { apply filter_In. split; [now apply in_map|]. apply trim_nonempty. eauto. }
    intros E. rewrite E in Hk. destruct Hk.
  - intros t Ht. apply filter_In in Ht as [Ht Hne].
    apply in_map_iff in Ht as (line & <- & Hline).
    split; [|split; [|split]].
    + intros E. rewrite E in Hne. discriminate.
    + apply trim_idempotent.
    + intros Hn. apply (Hno line Hline).
      unfold trim in Hn. now apply trimStart_chars, trimEnd_chars in Hn.
    + now exists line.
Qed.

Lemma batch_click_sends_trimmed_lines_witness :
  handleAnalyzeClick false 3 15 MoreExamples.batch_panel
  = OnAnalyze (App.Batch ["good day"; "bad day"]) /\
  ["good day"; "bad day"] <> [].
Proof.
  assert (H : handleAnalyzeClick false 3 15 MoreExamples.batch_panel
              = OnAnalyze (App.Batch ["good day"; "bad day"])) by reflexivity.
  split; [exact H|].
  destruct (batch_click_sends_trimmed_lines _ _ _ _ _ H) as (_ & _ & _ & Hne & _).
  exact Hne.
Defined.

End Panel.

(** ** Provenance and completion *)

Section Provenance.

Import App Facts.

Ltac fallback_result :=
  eexists; cbn [fst snd]; rewrite createFallbackAnalysis_eq; cbv zeta;
  cbn [Types.text timestamp apiUsed]; repeat split; try discriminate.

(** X15: [analyzeSentiment] always fulfils with a result for its text,
    stamped by the clock, after at most one request (none when the API key
    is missing or empty). The result is tagged [gemini] exactly when a key
    is set and the backend answered with a JSON value other than [null];
    otherwise it is the fallback analysis. *)
Theorem provenance_tells_the_path (env : GeminiService.Env) (slot : nat) (text : string) :
  exists r,
    fst (GeminiService.analyzeSentiment env slot text) = Fulfilled r /\
    Types.text r = text /\
    timestamp r = GeminiService.clock env slot /\
    snd (GeminiService.analyzeSentiment env slot text)
    = (match GeminiService.API_KEY env with
       | Some (String _ _) =>
           [GeminiService.SentimentRequest (GeminiService.escapeForPrompt text)]
       | _ => []
       end) /\
    (apiUsed r = gemini <->
     GeminiService.getAiClient env = true /\
     exists v,
       GeminiService.generateContent env slot
         (GeminiService.SentimentRequest (GeminiService.escapeForPrompt text))
       = GeminiService.Json v /\ v <> VNull /\ v <> VUndefined) /\
    (apiUsed r = fallback ->
     r = GeminiService.createFallbackAnalysis (GeminiService.clock env slot) text).
Proof.
  unfold GeminiService.analyzeSentiment, GeminiService.analyzeSentiment_try,
    GeminiService.getAiClient.
  destruct (GeminiService.API_KEY env) as [[|c key]|]; cbn [String.eqb negb].
  - fallback_result. intros [E _]. discriminate.
  - destruct (GeminiService.generateContent _ _ _) as [| |v] eqn:Eg.
    + fallback_result. intros [_ (v & E & _)]. discriminate.
    + fallback_result. intros [_ (v & E & _)]. discriminate.
    + destruct v; cbn [get];
        try (fallback_result; intros [_ (v' & E & H1 & H2)]; injection E as <-;
             solve [now destruct H1 | now destruct H2]);
        (eexists; cbn [fst snd Types.text timestamp apiUsed];
         repeat split; try discriminate; eexists; repeat split; discriminate).
  - fallback_result. intros [E _]. discriminate.
Qed.

(** X16: against the real service an admitted request of at least one text
    always completes: the history gains one result for each text, in input
    order and before the older results, the counter grows by the number of
    texts, the label shown is that of the first new result, and the status
    reports success for that number of texts. *)
Theorem admitted_analysis_completes
  (env : GeminiService.Env) (input : Input) (st : State) :
  admitted (Analyze input) st = true ->
  texts_of input <> [] ->
  exists first rest,
    results (fst (handleAnalyze (geminiService env) input st))
    = (first :: rest) ++ results st /\
    map Types.text (first :: rest) = texts_of input /\
    analysisCount (fst (handleAnalyze (geminiService env) input st))
    = analysisCount st + length (texts_of input) /\
    apiStatus (fst (handleAnalyze (geminiService env) input st))
    = {| status := success;
         status_message := complete_message (length (texts_of input)) |} /\
    isLoading (fst (handleAnalyze (geminiService env) input st)) = false.
Proof.
  intros Hadm Hne. cbn [admitted] in Hadm. apply andb_true_iff in Hadm as [Hv Hq].
  apply first_invalid_none in Hv. apply Nat.leb_le in Hq.
  destruct (handleAnalyze_admitted (geminiService env) input st Hv Hq) as (_ & Hl & H).
  destruct (real_analyses_fulfil env (texts_of input)) as (rs & E1 & E2).
  rewrite E1, Promise_all_values in H. destruct H as (Hr & Hc & Hs & _).
  assert (Hn : length rs = length (texts_of input)) by (now rewrite <- E2, length_map).
  destruct rs as [|first rest].
  - destruct (texts_of input); [now destruct Hne | discriminate].
  - exists first, rest. split; [exact Hr|]. split; [exact E2|].
    split; [now rewrite Hc, Hn|]. split; [|exact Hl].
    rewrite Hs; [now rewrite Hn | discriminate].
Qed.

Lemma admitted_analysis_completes_witness :
  admitted (Analyze (Batch ["good day"; "bad day"; "a day"])) (Examples.with_count 12) = true /\
  texts_of (Batch ["good day"; "bad day"; "a day"]) <> [] /\
  analysisCount
    (fst (handleAnalyze (geminiService Examples.offline)
            (Batch ["good day"; "bad day"; "a day"]) (Examples.with_count 12))) = 15 /\
  status_message
    (apiStatus
       (fst (handleAnalyze (geminiService Examples.offline)
               (Batch ["good day"; "bad day"; "a day"]) (Examples.with_count 12))))
  = "Analysis complete for 3 text(s)!".
Proof.
  assert (H1 : admitted (Analyze (Batch ["good day"; "bad day"; "a day"]))
                 (Examples.with_count 12) = true) by reflexivity.
  assert (H2 : texts_of (Batch ["good day"; "bad day"; "a day"]) <> []) by discriminate.
  split; [exact H1|]. split; [exact H2|].
  destruct (admitted_analysis_completes Examples.offline _ _ H1 H2)
    as (first & rest & _ & _ & Hc & Hs & _).
  split; [exact Hc|]. rewrite Hs. reflexivity.
Defined.

End Provenance.
